(** * Withdrawal flow of the XLayer Telegram bot (index.js)

    A shallow embedding of the bot's session store, request signing and
    withdrawal handler, together with the parts of the JavaScript runtime
    the handler relies on:

    - [JSNumber]: IEEE 754 binary64 numbers as [spec_float], [parseFloat]
      and [Number::toString] as ECMAScript defines them;
    - [BigNum]: the arbitrary-precision decimal type the handler imports
      as [BigNumber] (constructor from a number, [times], [toString]);
    - the handlers of index.js in a state-and-exception monad over the
      [userStates] table, with a trace of the messages sent, the requests
      fetched and the local signing calls;
    - [Laws]: the predicates in which the properties of the handlers and
      of the worlds they reach are stated.

    Strings are byte strings, the UTF-8 encoding of the text: the
    characters the code inspects (digits, signs, ASCII letters, JSON
    delimiters) are ASCII, and white space is skipped in its encoded
    form. Sending a chat message and deriving a key are total; the
    address check, the signer, a request and a pin may fail. *)

From Stdlib Require Import ZArith NArith String Ascii List Bool Lia.
From Stdlib Require Import DecimalString.
From Stdlib Require Import Floats.SpecFloat.
From stdpp Require Import gmap.

Import ListNotations.
Local Open Scope Z_scope.

(* ===================================================================== *)
(** ** Characters and decimal digits *)
(* ===================================================================== *)

Definition dquote : string := String (ascii_of_nat 34) EmptyString.
Definition backslash : string := String (ascii_of_nat 92) EmptyString.
Definition backtick : string := String (ascii_of_nat 96) EmptyString.
Definition newline : string := String (ascii_of_nat 10) EmptyString.

Definition is_digit (c : ascii) : bool :=
  let n := N_of_ascii c in ((48 <=? n) && (n <=? 57))%N.

Definition digit_val (c : ascii) : Z := Z.of_N (N_of_ascii c) - 48.

(** ECMAScript's WhiteSpace and LineTerminator. A string is the UTF-8
    encoding of a text. [is_space] holds of the members that take one
    byte: U+0009 to U+000D and U+0020. *)
Definition is_space (c : ascii) : bool :=
  let n := N_of_ascii c in (((9 <=? n) && (n <=? 13)) || (n =? 32))%N.

(** U+00A0, the member that takes two bytes. *)
Definition is_space2 (c1 c2 : ascii) : bool :=
  ((N_of_ascii c1 =? 194) && (N_of_ascii c2 =? 160))%N.

(** The members that take three bytes: U+1680, U+2000 to U+200A,
    U+2028, U+2029, U+202F, U+205F, U+3000 and U+FEFF. *)
Definition is_space3 (c1 c2 c3 : ascii) : bool :=
  let a := N_of_ascii c1 in
  let b := N_of_ascii c2 in
  let c := N_of_ascii c3 in
  (((a =? 225) && (b =? 154) && (c =? 128))
   || ((a =? 226) && (b =? 128)
       && (((128 <=? c) && (c <=? 138)) || (c =? 168) || (c =? 169)
           || (c =? 175)))
   || ((a =? 226) && (b =? 129) && (c =? 159))
   || ((a =? 227) && (b =? 128) && (c =? 128))
   || ((a =? 239) && (b =? 187) && (c =? 191)))%N.

Fixpoint trimStart (s : string) : string :=
  match s with
  | String c1 r1 =>
      if is_space c1 then trimStart r1
      else
        match r1 with
        | String c2 r2 =>
            if is_space2 c1 c2 then trimStart r2
            else
              match r2 with
              | String c3 r3 =>
                  if is_space3 c1 c2 c3 then trimStart r3 else s
              | EmptyString => s
              end
        | EmptyString => s
        end
  | EmptyString => s
  end.

(** [span_digits acc cnt s]: the longest run of decimal digits at the head
    of [s], accumulated on [acc]; returns value, number of digits, rest. *)
Fixpoint span_digits (acc : Z) (cnt : Z) (s : string) : Z * Z * string :=
  match s with
  | String c r =>
      if is_digit c then span_digits (10 * acc + digit_val c) (cnt + 1) r
      else (acc, cnt, s)
  | EmptyString => (acc, cnt, s)
  end.

Definition string_of_N (n : N) : string :=
  NilZero.string_of_uint (N.to_uint n).

Definition string_of_Z (z : Z) : string :=
  match z with
  | Zneg p => ("-" ++ string_of_N (Npos p))%string
  | _ => string_of_N (Z.to_N z)
  end.

Fixpoint zeros (n : nat) : string :=
  match n with
  | O => EmptyString
  | S k => String "0" (zeros k)
  end.

Fixpoint str_take (n : nat) (s : string) : string :=
  match n, s with
  | S k, String c r => String c (str_take k r)
  | _, _ => EmptyString
  end.

Fixpoint str_drop (n : nat) (s : string) : string :=
  match n, s with
  | S k, String _ r => str_drop k r
  | _, _ => s
  end.

(* ===================================================================== *)
(** ** JavaScript numbers *)
(* ===================================================================== *)

Module JSNumber.

(** A Number value is a binary64 float: 53 bits of precision, exponent of
    the infinities 1024. *)
Definition number := spec_float.
Definition prec : Z := 53.
Definition emax : Z := 1024.

Definition NaN : number := S754_nan.
Definition Infinity : number := S754_infinity false.
Definition zero : number := S754_zero false.

(** The Number value for the real [n * 10^k], [n > 0]: round to nearest,
    ties to even. The quotient of the two integers is rounded by the
    Standard Library's division, whose core takes arbitrary integer
    mantissas. *)
Definition of_decimal (neg : bool) (n : Z) (k : Z) : number :=
  match n with
  | Zpos p =>
      let '(num, den) :=
        if 0 <=? k then (Z.to_pos (n * 10 ^ k), 1%positive)
        else (p, Z.to_pos (10 ^ (- k))) in
      SFdiv prec emax (S754_finite neg num 0) (S754_finite false den 0)
  | _ => S754_zero neg
  end.

Definition of_Z (z : Z) : number := of_decimal (z <? 0) (Z.abs z) 0.

(** *** parseFloat *)

Definition starts_with (p s : string) : bool := String.prefix p s.

(** ExponentPart: [e] or [E], an optional sign, at least one digit;
    absent or malformed, the exponent is 0 and nothing is consumed. *)
Definition exponent_part (s : string) : Z :=
  match s with
  | String c r =>
      if (Ascii.eqb c "e" || Ascii.eqb c "E")%bool then
        let '(neg, r') :=
          match r with
          | String "-" r' => (true, r')
          | String "+" r' => (false, r')
          | _ => (false, r)
          end in
        let '(v, cnt, _) := span_digits 0 0 r' in
        if cnt =? 0 then 0 else if neg then - v else v
      else 0
  | EmptyString => 0
  end.

(** The longest prefix that is a StrUnsignedDecimalLiteral. *)
Definition parse_unsigned (neg : bool) (s : string) : number :=
  if starts_with "Infinity" s then S754_infinity neg
  else
    let '(ip, icnt, r1) := span_digits 0 0 s in
    let '(m, fcnt, r2) :=
      match r1 with
      | String "." r => span_digits ip 0 r
      | _ => (ip, 0, r1)
      end in
    if (icnt =? 0) && (fcnt =? 0) then NaN
    else of_decimal neg m (exponent_part r2 - fcnt).

Definition parseFloat (text : string) : number :=
  match trimStart text with
  | String "-" r => parse_unsigned true r
  | String "+" r => parse_unsigned false r
  | s => parse_unsigned false s
  end.

Definition isNaN (x : number) : bool :=
  match x with S754_nan => true | _ => false end.

(** [x <= 0] and [x > 0] on numbers (false when [x] is NaN). *)
Definition le_zero (x : number) : bool := SFleb x zero.
Definition gt_zero (x : number) : bool := SFltb zero x.

(** ToBoolean of a number: false for 0, -0 and NaN. *)
Definition truthy (x : number) : bool :=
  match x with
  | S754_zero _ | S754_nan => false
  | _ => true
  end.

(** *** Number::toString

    For a finite positive [x], the decimal [(s, k, n)] of ECMAScript:
    [s] has [k] digits, [s * 10^(n-k)] converts back to [x], [k] is as
    small as possible and [s] is as close to [x] as possible. *)

Fixpoint ndigits_fuel (fuel : nat) (z : Z) : Z :=
  match fuel with
  | O => 1
  | S f => if z <? 10 then 1 else 1 + ndigits_fuel f (z / 10)
  end.

(** Number of decimal digits of [z > 0]. *)
Definition ndigits (z : Z) : Z := ndigits_fuel (Z.to_nat (Z.log2 z)) z.

(** Least [j >= 1] with [num * 10^j >= den], for [0 < num < den]. *)
Fixpoint lead_zeros_fuel (fuel : nat) (num den : Z) : Z :=
  match fuel with
  | O => 1
  | S f => if den <=? num * 10 then 1
           else 1 + lead_zeros_fuel f (num * 10) den
  end.

(** [n0] with [10^(n0-1) <= num/den < 10^n0]. *)
Definition magnitude (num den : Z) : Z :=
  if den <=? num then ndigits (num / den)
  else 1 - lead_zeros_fuel (Z.to_nat (Z.log2 den)) num den.

(** [num/den * 10^j] as a fraction. *)
Definition scale10 (num den j : Z) : Z * Z :=
  if 0 <=? j then (num * 10 ^ j, den) else (num, den * 10 ^ (- j)).

Definition roundtrips (x : number) (c e10 : Z) : bool :=
  match SFcompare (of_decimal false c e10) x with
  | Some Eq => true
  | _ => false
  end.

(** Search [k = k0, k0+1, ...] for the first digit count at which the
    decimal just below or just above [x] converts back to [x]. *)
Fixpoint shortest_fuel (fuel : nat) (x : number) (num den n0 k : Z)
  : Z * Z :=
  let '(a, b) := scale10 num den (k - n0) in
  let lo := a / b in
  let hi := lo + 1 in
  let oklo := roundtrips x lo (n0 - k) in
  let okhi := roundtrips x hi (n0 - k) in
  let closer :=
    (* is [hi] strictly closer to a/b than [lo], or equally close and even *)
    match 2 * a ?= (2 * lo + 1) * b with
    | Gt => true
    | Eq => Z.even hi
    | Lt => false
    end in
  match fuel with
  | O => (lo, n0 - k)
  | S f =>
      if oklo && okhi then (if closer then hi else lo, n0 - k)
      else if oklo then (lo, n0 - k)
      else if okhi then (hi, n0 - k)
      else shortest_fuel f x num den n0 (k + 1)
  end.

(** Shortest decimal [(c, e10)], [x = c * 10^e10] up to conversion, of a
    finite positive number given by mantissa and binary exponent. *)
Definition shortest (m : positive) (e : Z) : Z * Z :=
  let '(num, den) :=
    if 0 <=? e then (Zpos m * 2 ^ e, 1) else (Zpos m, 2 ^ (- e)) in
  shortest_fuel 17 (S754_finite false m e) num den (magnitude num den) 1.

(** Strip the trailing zeros of a positive coefficient. *)
Fixpoint strip_zeros_fuel (fuel : nat) (c e10 : Z) : Z * Z :=
  match fuel with
  | O => (c, e10)
  | S f => if (c mod 10 =? 0) && (0 <? c)
           then strip_zeros_fuel f (c / 10) (e10 + 1)
           else (c, e10)
  end.

Definition strip_zeros (c e10 : Z) : Z * Z :=
  strip_zeros_fuel (Z.to_nat (Z.log2 c)) c e10.

Definition digits_of (m : positive) (e : Z) : Z * Z :=
  let '(c, e10) := shortest m e in strip_zeros c e10.

(** The text of a positive finite number with digits [s] (as the
    coefficient [c]) and decimal point position [n]. *)
Definition format (c n : Z) : string :=
  let ds := string_of_Z c in
  let k := Z.of_nat (String.length ds) in
  if (k <=? n) && (n <=? 21) then
    (ds ++ zeros (Z.to_nat (n - k)))%string
  else if (0 <? n) && (n <=? 21) then
    (str_take (Z.to_nat n) ds ++ "." ++ str_drop (Z.to_nat n) ds)%string
  else if (-6 <? n) && (n <=? 0) then
    ("0." ++ zeros (Z.to_nat (- n)) ++ ds)%string
  else
    let sg : string := if n - 1 <? 0 then "-"%string else "+"%string in
    let ex := (sg ++ string_of_Z (Z.abs (n - 1)))%string in
    if k =? 1 then (ds ++ "e" ++ ex)%string
    else (str_take 1 ds ++ "." ++ str_drop 1 ds ++ "e" ++ ex)%string.

Definition toString (x : number) : string :=
  match x with
  | S754_nan => "NaN"
  | S754_zero _ => "0"
  | S754_infinity neg => if neg then "-Infinity" else "Infinity"
  | S754_finite neg m e =>
      let '(c, e10) := digits_of m e in
      let n := e10 + Z.of_nat (String.length (string_of_Z c)) in
      let sg : string := if neg then "-"%string else ""%string in
      (sg ++ format c n)%string
  end.

(** *** Multiplication and Number::toFixed *)

Definition mul (x y : number) : number := SFmul prec emax x y.

(** Zeros on the left, up to [width] characters. *)
Definition pad_left (width : nat) (s : string) : string :=
  (zeros (width - String.length s) ++ s)%string.

(** [x.toFixed(f)]: the integer [n] nearest to [x * 10^f] (the larger
    one on a tie), written with [f] digits after the point; the text of
    [x] itself when it is 10^21 or more. *)
Definition toFixed (f : nat) (x : number) : string :=
  match x with
  | S754_nan => "NaN"%string
  | S754_infinity neg => if neg then "-Infinity"%string else "Infinity"%string
  | S754_zero _ =>
      if (f =? 0)%nat then "0"%string else ("0." ++ zeros f)%string
  | S754_finite neg m e =>
      let '(num, den) :=
        if 0 <=? e then (Zpos m * 2 ^ e, 1) else (Zpos m, 2 ^ (- e)) in
      if den * 10 ^ 21 <=? num then toString x
      else
        let n := (2 * num * 10 ^ Z.of_nat f + den) / (2 * den) in
        let ds := pad_left (S f) (string_of_Z n) in
        let k := (String.length ds - f)%nat in
        let sg : string := if neg then "-"%string else ""%string in
        if (f =? 0)%nat then (sg ++ ds)%string
        else (sg ++ str_take k ds ++ "." ++ str_drop k ds)%string
  end.

End JSNumber.

(* ===================================================================== *)
(** ** The BigNumber type of the crypto library (bignumber.js) *)
(* ===================================================================== *)

Module BigNum.
Import JSNumber.

(** A BigNumber is NaN, an infinity, or a sign with a decimal coefficient
    and exponent: [coef * 10^exp10], the coefficient without trailing
    zeros (the library normalises after every operation), zero as
    coefficient 0 and exponent 0. *)
Inductive BigNumber :=
| BNaN
| BInf (neg : bool)
| BFin (neg : bool) (coef : Z) (exp10 : Z).

Definition MAX_EXP : Z := 1000000000.
Definition MIN_EXP : Z := -1000000000.
Definition TO_EXP_NEG : Z := -7.
Definition TO_EXP_POS : Z := 21.

(** Exponent of the most significant digit (the library's field [e]). *)
Definition msd_exp (coef exp10 : Z) : Z :=
  exp10 + Z.of_nat (String.length (string_of_Z coef)) - 1.

Definition normalise (neg : bool) (coef exp10 : Z) : BigNumber :=
  if coef =? 0 then BFin neg 0 0
  else
    let '(c, e) := strip_zeros coef exp10 in
    if MAX_EXP <? msd_exp c e then BInf neg
    else if msd_exp c e <? MIN_EXP then BFin neg 0 0
    else BFin neg c e.

(** [new BigNumber(v)] for a number [v]: the decimal that [String(v)]
    prints (integers below 2^31 take a fast path to the same value). *)
Definition of_number (v : number) : BigNumber :=
  match v with
  | S754_nan => BNaN
  | S754_infinity neg => BInf neg
  | S754_zero neg => BFin neg 0 0
  | S754_finite neg m e =>
      let '(c, e10) := digits_of m e in normalise neg c e10
  end.

(** [x.times(y)]: exact, never rounded. *)
Definition times (x y : BigNumber) : BigNumber :=
  match x, y with
  | BNaN, _ | _, BNaN => BNaN
  | BInf sx, BInf sy => BInf (xorb sx sy)
  | BInf sx, BFin sy c _ | BFin sy c _, BInf sx =>
      if c =? 0 then BNaN else BInf (xorb sx sy)
  | BFin sx cx ex, BFin sy cy ey =>
      normalise (xorb sx sy) (cx * cy) (ex + ey)
  end.

Definition toExponential (str : string) (e : Z) : string :=
  let mant : string :=
    if (1 <? String.length str)%nat
    then (str_take 1 str ++ "." ++ str_drop 1 str)%string else str in
  let sg : string := if e <? 0 then "e"%string else "e+"%string in
  (mant ++ sg ++ string_of_Z e)%string.

Definition toFixedPoint (str : string) (e : Z) : string :=
  if e <? 0 then
    ("0." ++ zeros (Z.to_nat (- e - 1)) ++ str)%string
  else
    let len := Z.of_nat (String.length str) in
    if len <? e + 1 then (str ++ zeros (Z.to_nat (e + 1 - len)))%string
    else if e + 1 <? len then
      (str_take (Z.to_nat (e + 1)) str ++ "." ++
       str_drop (Z.to_nat (e + 1)) str)%string
    else str.

(** [x.toString()], which a template literal calls. *)
Definition toString (x : BigNumber) : string :=
  match x with
  | BNaN => "NaN"
  | BInf neg => if neg then "-Infinity" else "Infinity"
  | BFin neg c e10 =>
      let e := msd_exp c e10 in
      let str := string_of_Z c in
      let body :=
        if (e <=? TO_EXP_NEG) || (TO_EXP_POS <=? e)
        then toExponential str e else toFixedPoint str e in
      if neg && negb (c =? 0) then ("-" ++ body)%string else body
  end.

End BigNum.

(* ===================================================================== *)
(** ** JSON values of the remote service and JSON.stringify *)
(* ===================================================================== *)

Module JS.
Import JSNumber.

(** What [response.json()] yields and what the handler assembles as a
    request body. Objects list their properties in insertion order. *)
#[local] Unset Elimination Schemes.
Inductive value :=
| VUndefined
| VNull
| VBool (b : bool)
| VNum (x : number)
| VStr (s : string)
| VArr (items : list value)
| VObj (fields : list (string * value)).
#[local] Set Elimination Schemes.

(** What a [throw] carries to the [catch]: an [Error] with the value
    given as its message, or the TypeError of a property read on
    [undefined] or [null], or the failure of an awaited external call. *)
Inductive exn :=
| Error (message : value)
| TypeError
| Rejected.

Fixpoint assoc (k : string) (fields : list (string * value)) : value :=
  match fields with
  | [] => VUndefined
  | (k', v) :: r => if String.eqb k k' then v else assoc k r
  end.

(** [v.k] for a property name that no built-in prototype defines. *)
Definition get (v : value) (k : string) : exn + value :=
  match v with
  | VUndefined | VNull => inl TypeError
  | VObj fields => inr (assoc k fields)
  | _ => inr VUndefined
  end.

(** [v[0]]. *)
Definition first (v : value) : exn + value :=
  match v with
  | VUndefined | VNull => inl TypeError
  | VArr items => inr (List.hd VUndefined items)
  | VStr s => inr (match s with
                   | String c _ => VStr (String c EmptyString)
                   | EmptyString => VUndefined
                   end)
  | VObj fields => inr (assoc "0" fields)
  | _ => inr VUndefined
  end.

(** [v === "0"]-style comparison with a string literal. *)
Definition strict_eq_string (v : value) (s : string) : bool :=
  match v with
  | VStr s' => String.eqb s' s
  | _ => false
  end.

Definition truthy (v : value) : bool :=
  match v with
  | VUndefined | VNull => false
  | VBool b => b
  | VNum x => JSNumber.truthy x
  | VStr s => negb (String.eqb s "")
  | VArr _ | VObj _ => true
  end.

(** [a || b]. *)
Definition or_else (a b : value) : value := if truthy a then a else b.

Fixpoint join (sep : string) (l : list string) : string :=
  match l with
  | [] => EmptyString
  | [x] => x
  | x :: r => (x ++ sep ++ join sep r)%string
  end.

(** ToString, as a template literal applies it. *)
Fixpoint to_string (v : value) : string :=
  match v with
  | VUndefined => "undefined"
  | VNull => "null"
  | VBool b => if b then "true" else "false"
  | VNum x => JSNumber.toString x
  | VStr s => s
  | VArr items =>
      join ","
        (List.map (fun i => match i with
                            | VUndefined | VNull => EmptyString
                            | _ => to_string i
                            end) items)
  | VObj _ => "[object Object]"
  end.

Definition hex_digit (n : N) : string :=
  String (ascii_of_N (if (n <? 10)%N then 48 + n else 87 + n)%N) EmptyString.

(** QuoteJSONString on one character. *)
Definition escape_char (c : ascii) : string :=
  let n := N_of_ascii c in
  if (n =? 34)%N then (backslash ++ dquote)%string
  else if (n =? 92)%N then (backslash ++ backslash)%string
  else if (n =? 8)%N then (backslash ++ "b")%string
  else if (n =? 9)%N then (backslash ++ "t")%string
  else if (n =? 10)%N then (backslash ++ "n")%string
  else if (n =? 12)%N then (backslash ++ "f")%string
  else if (n =? 13)%N then (backslash ++ "r")%string
  else if (n <? 32)%N then
    (backslash ++ "u00" ++ hex_digit (n / 16) ++ hex_digit (n mod 16))%string
  else String c EmptyString.

Fixpoint escape (s : string) : string :=
  match s with
  | EmptyString => EmptyString
  | String c r => (escape_char c ++ escape r)%string
  end.

Definition quote (s : string) : string := (dquote ++ escape s ++ dquote)%string.

(** [JSON.stringify(v)]; [None] is the [undefined] it returns for
    [undefined]. A property whose value is [undefined] is left out; an
    [undefined] array element prints as [null]; so does a number that is
    not finite. *)
Fixpoint stringify (v : value) : option string :=
  match v with
  | VUndefined => None
  | VNull => Some "null"%string
  | VBool b => Some (if b then "true" else "false")%string
  | VNum x =>
      Some (match x with
            | S754_nan | S754_infinity _ => "null"%string
            | _ => JSNumber.toString x
            end)
  | VStr s => Some (quote s)
  | VArr items =>
      Some ("[" ++ join ","
              (List.map (fun i => match stringify i with
                                  | Some t => t
                                  | None => "null"%string
                                  end) items) ++ "]")%string
  | VObj fields =>
      Some ("{" ++ join ","
              (List.flat_map
                 (fun kv => match stringify (snd kv) with
                            | Some t => [(quote (fst kv) ++ ":" ++ t)%string]
                            | None => []
                            end) fields) ++ "}")%string
  end.

(** [JSON.stringify] of an object literal: always a string. *)
Definition stringify_object (fields : list (string * value)) : string :=
  match stringify (VObj fields) with
  | Some t => t
  | None => EmptyString
  end.

(** An optional string property: [undefined] when absent. *)
Definition of_option (o : option string) : value :=
  match o with
  | Some s => VStr s
  | None => VUndefined
  end.

End JS.

(* ===================================================================== *)
(** ** External collaborators *)
(* ===================================================================== *)

(** The object passed to the signer as [data]. *)
Record txParams := {
  tx_to : string;
  tx_value : string;
  tx_nonce : JS.value;
  tx_gasPrice : JS.value;
  tx_gasLimit : JS.value;
  tx_chainId : string;
}.

(** [bip39] and [EthWallet] of the wallet SDK. Key generation draws on an
    entropy source, read here by a counter. [validAddress] gives the
    awaited result of the call, a value, or [None] when the call
    throws; [signTransaction] gives the signed transaction, or [None]
    when signing fails. *)
Class Wallet := {
  generateMnemonic : nat -> string;
  getDerivedPath : Z -> string;
  getDerivedPrivateKey : string -> string -> string;
  getNewAddress : string -> string * string;
  validAddress : string -> option JS.value;
  signTransaction : JSNumber.number -> option string -> txParams -> option string;
}.

(** What a [fetch] is called with. *)
Record request := {
  req_url : string;
  req_method : string;
  req_headers : list (string * string);
  req_body : string;
}.

(** The process environment, the clock, the HMAC primitive, the remote
    service and the chat transport. [fetch_json] is the body of the
    response parsed as JSON, [None] when the request or the parse fails;
    [message_id] numbers the messages the bot sends; [pinChatMessage]
    tells whether the chat accepts the pin of a message. *)
Class Platform := {
  OKX_API_KEY : string;
  OKX_API_SECRET_KEY : string;
  OKX_API_PASSPHRASE : string;
  OKX_PROJECT_ID : string;
  toISOString : nat -> string;
  hmac_sha256_base64 : string -> string -> string;
  fetch_json : request -> option JS.value;
  message_id : nat -> Z;
  pinChatMessage : Z -> option Z -> bool;
}.

(* ===================================================================== *)
(** ** The bot *)
(* ===================================================================== *)

Module Bot.
Import JS.
Export JSNumber.

(** An entry of [userStates]: every property is optional. *)
Record userState := {
  messageId : option Z;
  address : option string;
  privateKey : option string;
  publicKey : option string;
  withdrawalRequested : option bool;
  withdrawalAmount : option number;
}.

(** The empty object. *)
Definition noState : userState :=
  {| messageId := None; address := None; privateKey := None;
     publicKey := None; withdrawalRequested := None;
     withdrawalAmount := None |}.

Definition override {A} (new old : option A) : option A :=
  match new with
  | Some _ => new
  | None => old
  end.

(** [{ ...old, ...new }]. *)
Definition spread (old new : userState) : userState :=
  {| messageId := override (messageId new) (messageId old);
     address := override (address new) (address old);
     privateKey := override (privateKey new) (privateKey old);
     publicKey := override (publicKey new) (publicKey old);
     withdrawalRequested :=
       override (withdrawalRequested new) (withdrawalRequested old);
     withdrawalAmount :=
       override (withdrawalAmount new) (withdrawalAmount old) |}.

(** Options of a chat message. *)
Record replyOptions := {
  force_reply : bool;
  parse_mode : option string;
  inline_keyboard : list (string * string);
}.

Definition plain : replyOptions :=
  {| force_reply := false; parse_mode := None; inline_keyboard := [] |}.
Definition forceReply : replyOptions :=
  {| force_reply := true; parse_mode := None; inline_keyboard := [] |}.
Definition markdown : replyOptions :=
  {| force_reply := false; parse_mode := Some "Markdown"%string;
     inline_keyboard := [] |}.

(** What the bot does to the outside, in order. Console output is not
    part of the trace. *)
Inductive event :=
| Reply (chat : Z) (text : string) (options : replyOptions)
| Fetch (r : request)
| Sign (chainId : number) (key : option string) (data : txParams)
| Pin (chat : Z) (message : option Z)
| Answer (user : Z).

Record world := {
  userStates : gmap Z userState;
  sent : nat;       (* messages sent so far *)
  clock : nat;      (* readings of the clock so far *)
  entropy : nat;    (* mnemonics drawn so far *)
  trace : list event;
}.

(** The update a handler receives: the sender, the chat, and for a text
    message its text and the id of the message it replies to, if any. *)
Record context := {
  from_id : Z;
  chat_id : Z;
  message_text : string;
  reply_to_message : option Z;
}.

Inductive result (A : Type) :=
| Ok (a : A)
| Throw (e : exn).
Arguments Ok {A} a.
Arguments Throw {A} e.

Definition M (A : Type) : Type := world -> result A * world.

#[export] Instance M_ret : MRet M := fun A a w => (Ok a, w).
#[export] Instance M_bind : MBind M := fun A B f m w =>
  match m w with
  | (Ok a, w') => f a w'
  | (Throw e, w') => (Throw e, w')
  end.

Definition throw {A} (e : exn) : M A := fun w => (Throw e, w).

Definition try_catch {A} (body : M A) (handler : exn -> M A) : M A :=
  fun w =>
    match body w with
    | (Ok a, w') => (Ok a, w')
    | (Throw e, w') => handler e w'
    end.

Definition lift {A} (r : exn + A) : M A :=
  match r with
  | inl e => throw e
  | inr a => mret a
  end.

Definition emit (ev : event) : M unit := fun w =>
  (Ok tt, {| userStates := userStates w; sent := sent w; clock := clock w;
             entropy := entropy w; trace := trace w ++ [ev] |}).

(** [userStates[id] || {}]. *)
Definition stateOf (w : world) (id : Z) : userState :=
  default noState (userStates w !! id).

Definition readState (id : Z) : M userState := fun w => (Ok (stateOf w id), w).

Definition xLayerChainId : string := "196".
Definition apiBaseUrl : string := "https://www.okx.com".

Definition updateUserState (user : Z) (state : userState) : M unit := fun w =>
  (Ok tt,
   {| userStates := <[user := spread (stateOf w user) state]> (userStates w);
      sent := sent w; clock := clock w; entropy := entropy w;
      trace := trace w |}).

Definition clearUserState (user : Z) : M unit := fun w =>
  (Ok tt,
   {| userStates := delete user (userStates w);
      sent := sent w; clock := clock w; entropy := entropy w;
      trace := trace w |}).

(** The request URL, [new URL(path, apiBaseUrl)] with no parameters, for
    an absolute path that holds no dot segment and nothing to encode,
    as the three paths of the handlers are. *)
Definition getRequestUrl (path : string) : string := (apiBaseUrl ++ path)%string.

(** [method.toUpperCase()] on ASCII letters; the handlers pass it the
    literal POST. *)
Definition toUpperCase_char (c : ascii) : ascii :=
  let n := N_of_ascii c in
  if ((97 <=? n) && (n <=? 122))%N then ascii_of_N (n - 32) else c.

Fixpoint toUpperCase (s : string) : string :=
  match s with
  | EmptyString => EmptyString
  | String c r => String (toUpperCase_char c) (toUpperCase r)
  end.

(** [parseInt] of a decimal literal. *)
Definition parseInt (s : string) : number :=
  let '(neg, r) :=
    match trimStart s with
    | String "-" r => (true, r)
    | String "+" r => (false, r)
    | r => (false, r)
    end in
  let '(v, cnt, _) := span_digits 0 0 r in
  if cnt =? 0 then NaN else of_decimal neg v 0.

(** The variables the process refuses to start without, and the check
    of lines 17-21 over an environment: the first variable that is unset
    or empty is reported. *)
Definition requiredEnvVars : list string :=
  [ "TELEGRAM_BOT_TOKEN"; "OKX_PROJECT_ID"; "OKX_API_KEY";
    "OKX_API_SECRET_KEY"; "OKX_API_PASSPHRASE"; "ENCRYPTION_KEY" ]%string.

Definition isSet (o : option string) : bool :=
  match o with
  | Some (String _ _) => true
  | _ => false
  end.

Fixpoint checkEnv (env : string -> option string) (vars : list string)
  : exn + unit :=
  match vars with
  | [] => inr tt
  | v :: rest =>
      if isSet (env v) then checkEnv env rest
      else inl (Error (VStr ("missing " ++ v ++ " environment variable")%string))
  end.

(** Property reads that may throw, in sequence. *)
#[export] Instance exn_bind : MBind (sum exn) := fun A B f r =>
  match r with
  | inl e => inl e
  | inr a => f a
  end.

Section Handlers.
Context {wallet : Wallet} {platform : Platform}.

(** [ctx.reply]: sends the message, returns its id. *)
Definition reply (ctx : context) (text : string) (options : replyOptions)
  : M Z := fun w =>
  (Ok (message_id (sent w)),
   {| userStates := userStates w; sent := S (sent w); clock := clock w;
      entropy := entropy w;
      trace := trace w ++ [Reply (chat_id ctx) text options] |}).

Definition sendReply (ctx : context) (text : string)
    (options : replyOptions) : M unit :=
  id ← reply ctx text options;
  updateUserState (from_id ctx)
    {| messageId := Some id; address := None; privateKey := None;
       publicKey := None; withdrawalRequested := None;
       withdrawalAmount := None |}.

(** [new Date().toISOString()]. *)
Definition now : M string := fun w =>
  (Ok (toISOString (clock w)),
   {| userStates := userStates w; sent := sent w; clock := S (clock w);
      entropy := entropy w; trace := trace w |}).

Definition drawMnemonic : M string := fun w =>
  (Ok (generateMnemonic (entropy w)),
   {| userStates := userStates w; sent := sent w; clock := clock w;
      entropy := S (entropy w); trace := trace w |}).

(** [await fetch(url, init)] followed by [await response.json()]. *)
Definition fetch (r : request) : M value :=
  emit (Fetch r);;
  match fetch_json r with
  | Some v => mret v
  | None => throw Rejected
  end.

(** Is the message a reply to the last message the bot recorded? *)
Definition repliesToLast (ctx : context) (userState : userState) : bool :=
  match reply_to_message ctx, messageId userState with
  | Some r, Some m => Z.eqb r m
  | _, _ => false
  end.

Definition handleUserState (ctx : context) (handler : context -> M unit)
  : M unit :=
  userState ← readState (from_id ctx);
  if repliesToLast ctx userState then handler ctx
  else reply ctx "Please select an option from the menu." plain;; mret tt.

(** Lines 69-82 of [getHeaders], once the clock is read. *)
Definition headersFor (timestamp method path body : string)
  : list (string * string) :=
  let signString := (timestamp ++ toUpperCase method ++ path ++ body)%string in
  let signature := hmac_sha256_base64 OKX_API_SECRET_KEY signString in
  [ ("Content-Type", "application/json");
    ("OK-ACCESS-KEY", OKX_API_KEY);
    ("OK-ACCESS-SIGN", signature);
    ("OK-ACCESS-TIMESTAMP", timestamp);
    ("OK-ACCESS-PASSPHRASE", OKX_API_PASSPHRASE);
    ("OK-ACCESS-PROJECT", OKX_PROJECT_ID) ]%string.

(** [body = ""] when the argument is absent. *)
Definition getHeaders (method path : string) (body : option string)
  : M (list (string * string)) :=
  let body := default EmptyString body in
  timestamp ← now;
  mret (headersFor timestamp method path body).

Definition getOrCreateAddress (user : Z) : M string :=
  userState ← readState user;
  match address userState with
  | Some (String c r) => mret (String c r)
  | _ =>
      mnemonic ← drawMnemonic;
      let hdPath := getDerivedPath 0 in
      let derivePrivateKey := getDerivedPrivateKey mnemonic hdPath in
      let newAddress := getNewAddress derivePrivateKey in
      updateUserState user
        {| messageId := None; address := Some (fst newAddress);
           privateKey := Some derivePrivateKey;
           publicKey := Some (snd newAddress);
           withdrawalRequested := None; withdrawalAmount := None |};;
      mret (fst newAddress)
  end.

Definition welcomeMessage (userAddress : string) : string :=
  (newline ++ "  *Welcome to your XLayer Trading Bot!*" ++ newline
   ++ "  Your XLayer address is " ++ userAddress ++ "." ++ newline
   ++ "  Select an option below:")%string.

Definition keyboard : list (string * string) :=
  [ ("Check Balance", "check_balance"); ("Deposit OKB", "deposit_OKB");
    ("Withdraw OKB", "withdraw_OKB"); ("Export key", "export_key");
    ("Pin message", "pin_message") ]%string.

(** [bot.command("start", ...)]. *)
Definition start (ctx : context) : M unit :=
  updateUserState (from_id ctx) noState;;
  userAddress ← getOrCreateAddress (from_id ctx);
  sendReply ctx (welcomeMessage userAddress)
    {| force_reply := false; parse_mode := Some "Markdown"%string;
       inline_keyboard := keyboard |}.

Definition handleInitialWithdrawal (ctx : context) : M unit :=
  updateUserState (from_id ctx)
    {| messageId := None; address := None; privateKey := None;
       publicKey := None; withdrawalRequested := Some true;
       withdrawalAmount := None |};;
  sendReply ctx
    "Please respond with the amount of OKB you want to withdraw."
    forceReply.

(** [!userState.withdrawalAmount]. *)
Definition noAmount (userState : userState) : bool :=
  match withdrawalAmount userState with
  | Some x => negb (JSNumber.truthy x)
  | None => true
  end.

(** [`${new BigNumber(amount).times(1e18)}`]; the literal [1e18] is the
    number 10^18. *)
Definition txAmountInWei (amount : option number) : string :=
  match amount with
  | Some x =>
      BigNum.toString
        (BigNum.times (BigNum.of_number x)
           (BigNum.of_number (of_decimal false 1 18)))
  | None => BigNum.toString BigNum.BNaN
  end.

Definition signInfoPath : string := "/api/v5/wallet/pre-transaction/sign-info".
Definition broadcastPath : string :=
  "/api/v5/wallet/pre-transaction/broadcast-transaction".

(** The sign-info body is built from the sender's address, the stored
    amount and the destination; the broadcast body from the signed
    transaction and the sender's address. *)
Definition signInfoBody (fromAddr : option string) (amount : option number)
    (destination : string) : string :=
  stringify_object
    [ ("chainIndex", VStr xLayerChainId);
      ("fromAddr", of_option fromAddr);
      ("toAddr", VStr destination);
      ("txAmount", VStr (txAmountInWei amount)) ]%string.

Definition broadcastBody (signedTx : string) (address : option string)
  : string :=
  stringify_object
    [ ("signedTx", VStr signedTx);
      ("chainIndex", VStr xLayerChainId);
      ("address", of_option address) ]%string.

(** [fetch(getRequestUrl(path), { method: "POST", headers:
    getHeaders("POST", path, body), body })]. *)
Definition post (path body : string) : M value :=
  headers ← getHeaders "POST" path (Some body);
  fetch {| req_url := getRequestUrl path; req_method := "POST";
           req_headers := headers; req_body := body |}.

(** Lines 324-337: the check of the sign-info response and the
    transaction parameters read from it. *)
Definition readSignInfo (signInfoData : value)
    (destination txAmountInWei : string) : exn + txParams :=
  code ← get signInfoData "code";
  if negb (strict_eq_string code "0") then
    msg ← get signInfoData "msg";
    inl (Error msg)
  else
    data ← get signInfoData "data";
    txData ← first data;
    nonce ← get txData "nonce";
    gasPrice ← get txData "gasPrice";
    normal ← get gasPrice "normal";
    gasLimit ← get txData "gasLimit";
    inr {| tx_to := destination; tx_value := txAmountInWei;
           tx_nonce := nonce; tx_gasPrice := normal;
           tx_gasLimit := gasLimit; tx_chainId := xLayerChainId |}.

(** Lines 371-379: the check of the broadcast response and the order
    id read from it. *)
Definition readBroadcast (broadcastData : value) : exn + value :=
  code ← get broadcastData "code";
  if strict_eq_string code "0" then
    data ← get broadcastData "data";
    order ← first data;
    get order "orderId"
  else
    msg ← get broadcastData "msg";
    inl (Error (or_else msg (VStr "Failed to broadcast transaction"))).

Definition amountText (amount : option number) : string :=
  match amount with
  | Some x => JSNumber.toString x
  | None => "undefined"
  end.

Definition successMessage (amount : option number) (destination : string)
    (orderId : value) : string :=
  ("Successfully initiated withdrawal of " ++ amountText amount
   ++ " OKB to " ++ destination ++ ". Transaction ID: "
   ++ to_string orderId)%string.

Definition failureMessage : string :=
  "An error occurred while initiating the withdrawal.".

Definition invalidDestination : string :=
  "Invalid destination address. Please try again.".

Definition invalidAmount : string :=
  "Invalid withdrawal amount. Please enter a positive number.".

(** [wallet.signTransaction(parseInt(xLayerChainId), { privateKey, data })]. *)
Definition sign (key : option string) (data : txParams) : M string :=
  emit (Sign (parseInt xLayerChainId) key data);;
  match signTransaction (parseInt xLayerChainId) key data with
  | Some signedTx => mret signedTx
  | None => throw Rejected
  end.

(** The body of the [try] past the test of the address check. *)
Definition withdraw (ctx : context) (userState : userState)
    (destination : string) : M unit :=
  sendReply ctx "Initiating withdrawal..." plain;;
  let txAmountInWei := txAmountInWei (withdrawalAmount userState) in
  signInfoData ← post signInfoPath
    (signInfoBody (address userState) (withdrawalAmount userState)
       destination);
  txParams ← lift (readSignInfo signInfoData destination txAmountInWei);
  signedTx ← sign (privateKey userState) txParams;
  broadcastData ← post broadcastPath
    (broadcastBody signedTx (address userState));
  orderId ← lift (readBroadcast broadcastData);
  sendReply ctx
    (successMessage (withdrawalAmount userState) destination orderId)
    markdown.

Definition handleWithdrawal (ctx : context) : M unit :=
  userState ← readState (from_id ctx);
  if noAmount userState then
    let withdrawalAmount := parseFloat (message_text ctx) in
    if isNaN withdrawalAmount || le_zero withdrawalAmount then
      reply ctx invalidAmount plain;;
      mret tt
    else
      sendReply ctx
        "Please respond with the XLayer address where you would like to receive the OKB."
        forceReply;;
      updateUserState (from_id ctx)
        {| messageId := None; address := None; privateKey := None;
           publicKey := None; withdrawalRequested := None;
           withdrawalAmount := Some withdrawalAmount |}
  else
    let destination := message_text ctx in
    try_catch
      (match validAddress destination with
       | None => throw Rejected
       | Some isValidAddress =>
           if negb (JS.truthy isValidAddress) then
             reply ctx invalidDestination plain;;
             mret tt
           else withdraw ctx userState destination
       end)
      (fun error => reply ctx failureMessage plain;; mret tt).

(** [bot.on("message:text", ...)]. *)
Definition onMessageText (ctx : context) : M unit :=
  handleUserState ctx (fun ctx =>
    userState ← readState (from_id ctx);
    if default false (withdrawalRequested userState)
    then handleWithdrawal ctx else mret tt).

Definition handleDeposit (ctx : context) : M unit :=
  userAddress ← getOrCreateAddress (from_id ctx);
  sendReply ctx
    "_Note: Make sure to deposit only to this address on the XLayer network!_"
    markdown;;
  sendReply ctx "Please send your OKB to the following address:" plain;;
  sendReply ctx (backtick ++ userAddress ++ backtick)%string markdown.

Definition handleExportKey (ctx : context) : M unit :=
  userState ← readState (from_id ctx);
  match privateKey userState with
  | Some (String c r) =>
      sendReply ctx
        "Your private key will be in the next message. Do NOT share it with anyone, and make sure you store it in a safe place."
        plain;;
      sendReply ctx (backtick ++ String c r ++ backtick)%string markdown
  | _ =>
      reply ctx "No wallet found for this user. Please start a new session."
        plain;;
      mret tt
  end.

(** [userStates[ctx.from.id].messageId] throws when the user has no
    session; the pin itself may be refused by the chat. *)
Definition handlePinMessage (ctx : context) : M unit :=
  try_catch
    (fun w =>
       match userStates w !! from_id ctx with
       | None => throw TypeError w
       | Some userState =>
           (emit (Pin (chat_id ctx) (messageId userState));;
            (if pinChatMessage (chat_id ctx) (messageId userState)
             then mret tt else throw Rejected);;
            reply ctx "Message pinned successfully!" plain;;
            mret tt) w
       end)
    (fun error =>
       reply ctx
         "Failed to pin the message. Ensure the bot has the proper permissions."
         plain;;
       mret tt).

Definition balancePath : string :=
  "/api/v5/wallet/asset/token-balances-by-address".

Definition balanceBody (userAddress : string) : string :=
  stringify_object
    [ ("address", VStr userAddress);
      ("tokenAddresses",
       VArr [ VObj [ ("chainIndex", VStr "196");
                     ("tokenAddress", VStr "") ] ]) ]%string.

(** [Array.isArray(v) && v.length > 0]. *)
Definition nonEmptyArray (v : value) : bool :=
  match v with
  | VArr (_ :: _) => true
  | _ => false
  end.

Definition defined (v : value) : bool :=
  match v with
  | VUndefined => false
  | _ => true
  end.

Definition balanceMessage (token balance tokenPrice symbol : value)
  : string :=
  let shown := toFixed 8 (parseFloat (to_string balance)) in
  let worth :=
    toFixed 2 (mul (parseFloat (to_string balance))
                   (parseFloat (to_string tokenPrice))) in
  let symbol := to_string (or_else symbol (VStr "OKB")) in
  ("Your XLayer " ++ symbol ++ " balance:" ++ newline
   ++ shown ++ " " ++ symbol ++ " (USD " ++ worth ++ ")")%string.

(** Lines 205-233: the message for a balance response, or the error
    thrown. *)
Definition readBalance (data : value) : exn + string :=
  code ← get data "code";
  items ← (if strict_eq_string code "0" then get data "data"
           else inr VUndefined);
  if strict_eq_string code "0" && nonEmptyArray items then
    entry ← first items;
    tokenAssets ← get entry "tokenAssets";
    if nonEmptyArray tokenAssets then
      token ← first tokenAssets;
      if negb (JS.truthy token) then
        inl (Error (VStr "Invalid token data received"))
      else
        balance ← get token "balance";
        tokenPrice ← get token "tokenPrice";
        if defined balance && defined tokenPrice then
          symbol ← get token "symbol";
          inr (balanceMessage token balance tokenPrice symbol)
        else inl (Error (VStr "Invalid token data received"))
    else inl (Error (VStr "No token assets found"))
  else
    msg ← get data "msg";
    inl (Error (or_else msg (VStr "No balance data received"))).

Definition balanceFailure : string :=
  "An error occurred while checking your balance. Please try again later.".

Definition handleCheckBalance (ctx : context) : M unit :=
  userAddress ← getOrCreateAddress (from_id ctx);
  try_catch
    (data ← post balancePath (balanceBody userAddress);
     text ← lift (readBalance data);
     sendReply ctx text plain)
    (fun error => reply ctx balanceFailure plain;; mret tt).

(** *** What one run of the destination step can do

    The request a [post] issues when the clock has been read [t]
    times, the two requests of a withdrawal, and what comes back. *)
Definition requestAt (t : nat) (path body : string) : request :=
  {| req_url := getRequestUrl path; req_method := "POST";
     req_headers := headersFor (toISOString t) "POST" path body;
     req_body := body |}.

Definition signInfoRequest (st : userState) (d : string) (t : nat) : request :=
  requestAt t signInfoPath
    (signInfoBody (address st) (withdrawalAmount st) d).

Definition broadcastRequest (st : userState) (signedTx : string) (t : nat)
  : request :=
  requestAt (S t) broadcastPath (broadcastBody signedTx (address st)).

Definition signInfoOutcome (st : userState) (d : string) (t : nat)
  : exn + txParams :=
  match fetch_json (signInfoRequest st d t) with
  | Some v => readSignInfo v d (txAmountInWei (withdrawalAmount st))
  | None => inl Rejected
  end.

Definition broadcastOutcome (st : userState) (signedTx : string) (t : nat)
  : exn + value :=
  match fetch_json (broadcastRequest st signedTx t) with
  | Some v => readBroadcast v
  | None => inl Rejected
  end.

Definition signing (st : userState) (data : txParams) : event :=
  Sign (parseInt xLayerChainId) (privateKey st) data.

Definition initiating (chat : Z) : event :=
  Reply chat "Initiating withdrawal..." plain.

(** What the test at line 291 sees of the destination [d]: the
    truthiness of the awaited result of [wallet.validAddress], or [None]
    when the call throws. *)
Definition addressCheck (d : string) : option bool :=
  match validAddress d with
  | Some isValidAddress => Some (JS.truthy isValidAddress)
  | None => None
  end.

(** The events of one destination step in the chat [chat] for the
    session [st], the text [d] and the clock at [t]: one constructor
    per way the step ends. *)
Inductive attempt (chat : Z) (st : userState) (d : string) (t : nat)
  : list event -> Prop :=
| attempt_invalid :
    addressCheck d = Some false ->
    attempt chat st d t [Reply chat invalidDestination plain]
| attempt_validation_threw :
    addressCheck d = None ->
    attempt chat st d t [Reply chat failureMessage plain]
| attempt_signInfo_failed e :
    addressCheck d = Some true ->
    signInfoOutcome st d t = inl e ->
    attempt chat st d t
      [initiating chat; Fetch (signInfoRequest st d t);
       Reply chat failureMessage plain]
| attempt_signing_failed data :
    addressCheck d = Some true ->
    signInfoOutcome st d t = inr data ->
    signTransaction (parseInt xLayerChainId) (privateKey st) data = None ->
    attempt chat st d t
      [initiating chat; Fetch (signInfoRequest st d t); signing st data;
       Reply chat failureMessage plain]
| attempt_broadcast_failed data signedTx e :
    addressCheck d = Some true ->
    signInfoOutcome st d t = inr data ->
    signTransaction (parseInt xLayerChainId) (privateKey st) data
      = Some signedTx ->
    broadcastOutcome st signedTx t = inl e ->
    attempt chat st d t
      [initiating chat; Fetch (signInfoRequest st d t); signing st data;
       Fetch (broadcastRequest st signedTx t);
       Reply chat failureMessage plain]
| attempt_succeeded data signedTx orderId :
    addressCheck d = Some true ->
    signInfoOutcome st d t = inr data ->
    signTransaction (parseInt xLayerChainId) (privateKey st) data
      = Some signedTx ->
    broadcastOutcome st signedTx t = inr orderId ->
    attempt chat st d t
      [initiating chat; Fetch (signInfoRequest st d t); signing st data;
       Fetch (broadcastRequest st signedTx t);
       Reply chat (successMessage (withdrawalAmount st) d orderId) markdown].

(** *** The listeners

    The buttons of the menu, by the callback data they carry, and the
    handler each is bound to in [callbackHandlers]. *)
Inductive button :=
| check_balance
| deposit_OKB
| withdraw_OKB
| pin_message
| export_key.

Definition callbackHandlers (b : button) : context -> M unit :=
  match b with
  | check_balance => handleCheckBalance
  | deposit_OKB => handleDeposit
  | withdraw_OKB => handleInitialWithdrawal
  | pin_message => handlePinMessage
  | export_key => handleExportKey
  end.

(** [bot.on("callback_query:data", ...)] for the data of a menu
    button: the query is answered, then the handler runs. Callback
    data that names no button of the menu is outside the model. *)
Definition onCallbackQuery (b : button) (ctx : context) : M unit :=
  emit (Answer (from_id ctx));;
  callbackHandlers b ctx.

(** An update the bot reacts to, and the listener that takes it. *)
Inductive update :=
| Command_start (ctx : context)
| Callback (b : button) (ctx : context)
| Text (ctx : context).

Definition handle (u : update) : M unit :=
  match u with
  | Command_start ctx => start ctx
  | Callback b ctx => onCallbackQuery b ctx
  | Text ctx => onMessageText ctx
  end.

(** The world after the updates [us], taken one at a time. *)
Definition runAll (us : list update) (w : world) : world :=
  fold_left (fun w u => snd (handle u w)) us w.

(** The requests one destination step issues, read off the answers of
    the wallet and of the remote service. *)
Definition requestsIssued (st : userState) (d : string) (t : nat)
  : list request :=
  match addressCheck d with
  | Some true =>
      signInfoRequest st d t ::
      match signInfoOutcome st d t with
      | inr data =>
          match signTransaction (parseInt xLayerChainId) (privateKey st) data with
          | Some signedTx => [broadcastRequest st signedTx t]
          | None => []
          end
      | inl _ => []
      end
  | _ => []
  end.

End Handlers.

(** The requests and the signing calls among some events. *)
Definition requestsOf (evs : list event) : list request :=
  omap (fun ev => match ev with Fetch r => Some r | _ => None end) evs.

Definition signingsOf (evs : list event) : list txParams :=
  omap (fun ev => match ev with Sign _ _ data => Some data | _ => None end) evs.

(** The value of a header. *)
Fixpoint header (name : string) (headers : list (string * string))
  : option string :=
  match headers with
  | [] => None
  | (k, v) :: r => if String.eqb k name then Some v else header name r
  end.

(** A response envelope carries the success code. *)
Definition accepted (v : value) : bool :=
  match get v "code" with
  | inr code => strict_eq_string code "0"
  | inl _ => false
  end.

(** Running a handler: the final world, and the events it added. *)
Definition exec {A} (m : M A) (w : world) : world := snd (m w).

Definition eventsOf {A} (m : M A) (w : world) : list event :=
  drop (length (trace w)) (trace (exec m w)).

(** The world in which the session of [user] holds the private key [k]
    and is otherwise the same. *)
Definition setKey (user : Z) (k : option string) (w : world) : world :=
  let st := stateOf w user in
  {| userStates :=
       <[user := {| messageId := messageId st; address := address st;
                    privateKey := k; publicKey := publicKey st;
                    withdrawalRequested := withdrawalRequested st;
                    withdrawalAmount := withdrawalAmount st |}]>
         (userStates w);
     sent := sent w; clock := clock w; entropy := entropy w;
     trace := trace w |}.

Definition initial : world :=
  {| userStates := ∅; sent := 0; clock := 0; entropy := 0; trace := [] |}.

End Bot.

(* ===================================================================== *)
(** ** A concrete environment, for running the handlers *)
(* ===================================================================== *)

Module Demo.
Import JS Bot.
Local Open Scope string_scope.

(** A wallet whose address check answers with a boolean. *)
Definition wallet : Wallet :=
  {| generateMnemonic := fun n => "seed-" ++ string_of_N (N.of_nat n);
     getDerivedPath := fun i => "m/44'/60'/0'/0/" ++ string_of_Z i;
     getDerivedPrivateKey := fun mnemonic hdPath => "key:" ++ mnemonic;
     getNewAddress := fun key => ("0x" ++ key, "pub:" ++ key);
     validAddress := fun a => Some (VBool (String.prefix "0x" a));
     signTransaction := fun _ key data =>
       Some ("signed:" ++ tx_to data ++ ":" ++ tx_value data) |}.

Definition is_hex (c : ascii) : bool :=
  let n := N_of_ascii c in
  (((48 <=? n) && (n <=? 57)) || ((65 <=? n) && (n <=? 70))
   || ((97 <=? n) && (n <=? 102)))%N.

(** [0x] and forty hexadecimal digits. *)
Definition wellFormed (a : string) : bool :=
  match a with
  | String "0" (String "x" r) =>
      (String.length r =? 40)%nat
      && forallb is_hex (String.list_ascii_of_string r)
  | _ => false
  end.

(** The same wallet, with an address check that answers the way
    [EthWallet.validAddress] of the wallet SDK does: with an object
    that holds the verdict under [isValid], next to the address. *)
Definition sdk : Wallet :=
  {| generateMnemonic := generateMnemonic (Wallet := wallet);
     getDerivedPath := getDerivedPath (Wallet := wallet);
     getDerivedPrivateKey := getDerivedPrivateKey (Wallet := wallet);
     getNewAddress := getNewAddress (Wallet := wallet);
     validAddress := fun a =>
       Some (VObj [ ("isValid", VBool (wellFormed a));
                    ("address", VStr a) ]);
     signTransaction := signTransaction (Wallet := wallet) |}.

Definition signInfoOk : value :=
  VObj [ ("code", VStr "0");
         ("data", VArr [ VObj [ ("nonce", VStr "7");
                                ("gasPrice", VObj [("normal", VStr "100")]);
                                ("gasLimit", VStr "21000") ] ]) ].

Definition broadcastOk : value :=
  VObj [ ("code", VStr "0");
         ("data", VArr [ VObj [ ("orderId", VStr "order-42") ] ]) ].

Definition refused : value :=
  VObj [ ("code", VStr "50011"); ("msg", VStr "rate limit") ].

Definition balanceOk : value :=
  VObj [ ("code", VStr "0");
         ("data",
          VArr [ VObj [ ("tokenAssets",
                         VArr [ VObj [ ("balance", VStr "1.5");
                                       ("tokenPrice", VStr "40.25");
                                       ("symbol", VStr "") ] ]) ] ]) ].

(** A remote service answering every request with [signInfo],
    [broadcast] or [balance], by the path requested. *)
Definition platformWith (signInfo broadcast balance : option value)
  : Platform :=
  {| OKX_API_KEY := "api-key";
     OKX_API_SECRET_KEY := "api-secret";
     OKX_API_PASSPHRASE := "passphrase";
     OKX_PROJECT_ID := "project";
     toISOString := fun n => "2024-01-01T00:00:" ++ string_of_N (N.of_nat n) ++ "Z";
     hmac_sha256_base64 := fun key msg => "hmac(" ++ key ++ "," ++ msg ++ ")";
     fetch_json := fun r =>
       if String.eqb (req_url r) (getRequestUrl signInfoPath) then signInfo
       else if String.eqb (req_url r) (getRequestUrl broadcastPath)
            then broadcast
            else balance;
     message_id := fun n => Z.of_nat n + 100;
     pinChatMessage := fun chat message => true |}.

Definition platform : Platform :=
  platformWith (Some signInfoOk) (Some broadcastOk) (Some balanceOk).

(** The same, with the sign-info and balance requests refused. *)
Definition refusing : Platform :=
  platformWith (Some refused) (Some broadcastOk) (Some refused).

(** The same, with the broadcast refused. *)
Definition unsent : Platform :=
  platformWith (Some signInfoOk) (Some refused) (Some balanceOk).

Definition alice : Z := 1.

(** A text message from [alice], replying to the message [r]. *)
Definition text (t : string) (r : Z) : context :=
  {| from_id := alice; chat_id := alice; message_text := t;
     reply_to_message := Some r |}.

(** A button pressed by [alice]. *)
Definition click : context :=
  {| from_id := alice; chat_id := alice; message_text := "";
     reply_to_message := None |}.

(** The worlds of one conversation: after /start, after the withdraw
    button, after the amount 2.5, after the destination. *)
Definition started : world :=
  exec (start (wallet := wallet) (platform := platform) click) initial.
Definition requested : world :=
  exec (handleInitialWithdrawal (platform := platform) click) started.
Definition captured : world :=
  exec (onMessageText (wallet := wallet) (platform := platform)
          (text "2.5" 101)) requested.
Definition completed : world :=
  exec (onMessageText (wallet := wallet) (platform := platform)
          (text "0xdest" 102)) captured.

(** A second user, who starts the bot after [alice] is done. *)
Definition bob : Z := 2.

Definition bobClick : context :=
  {| from_id := bob; chat_id := bob; message_text := "";
     reply_to_message := None |}.

Definition both : world :=
  exec (start (wallet := wallet) (platform := platform) bobClick) completed.

(** [alice] pressing the withdraw button of an old menu, without /start,
    and answering 2.5. *)
Definition walletless : world :=
  exec (onMessageText (wallet := wallet) (platform := platform)
          (text "2.5" 100))
    (exec (handleInitialWithdrawal (platform := platform) click) initial).

(** The world [captured] as it would be had [bob] a session of his own
    and the trace been lost: [alice] cannot tell the two apart. *)
Definition crowded : world :=
  {| userStates :=
       <[bob := {| messageId := Some 7; address := Some "0xbob";
                   privateKey := Some "key:bob"; publicKey := None;
                   withdrawalRequested := Some true;
                   withdrawalAmount := None |}]> (userStates captured);
     sent := sent captured; clock := clock captured;
     entropy := entropy captured; trace := [] |}.

End Demo.

(* ===================================================================== *)
(** ** Predicates on handlers and on worlds *)
(* ===================================================================== *)

Module Laws.
Import JS Bot.

(** The handler writes to the session of [user] alone. *)
Definition confined (user : Z) {A} (m : M A) : Prop :=
  forall w other, other <> user ->
    userStates (snd (m w)) !! other = userStates w !! other.

(** The handler returns normally: whatever is thrown inside is caught. *)
Definition returns {A} (m : M A) : Prop :=
  forall w, exists a, fst (m w) = Ok a.

(** The handler keeps the property [P] of the world. *)
Definition preserves (P : world -> Prop) {A} (m : M A) : Prop :=
  forall w, P w -> P (snd (m w)).

(** A property of the world that reads the session table only. *)
Definition onSessions (P : world -> Prop) : Prop :=
  forall w w', userStates w' = userStates w -> P w -> P w'.

(** The user an update comes from. *)
Definition sender (u : update) : Z :=
  match u with
  | Command_start ctx | Callback _ ctx | Text ctx => from_id ctx
  end.

(** The session of [user] holds the address [a] with the keys [k], [p]. *)
Definition keysAre (user : Z) (a : string) (k p : option string) (w : world)
  : Prop :=
  address (stateOf w user) = Some a
  /\ privateKey (stateOf w user) = k
  /\ publicKey (stateOf w user) = p.

(** The session of [user] holds the amount [x]. *)
Definition amountIs (user : Z) (x : number) (w : world) : Prop :=
  withdrawalAmount (stateOf w user) = Some x.

(** Every stored amount is a number above zero, and is stored in a
    session where a withdrawal was requested. *)
Definition amountsArePositive (w : world) : Prop :=
  forall user x,
    withdrawalAmount (stateOf w user) = Some x ->
    gt_zero x = true /\ withdrawalRequested (stateOf w user) = Some true.

(** Address, private key and public key are stored together, and are
    those the wallet derives from the private key. *)
Definition keysBelongTogether {wallet : Wallet} (w : world) : Prop :=
  forall user,
    match privateKey (stateOf w user) with
    | Some k =>
        address (stateOf w user) = Some (fst (getNewAddress k))
        /\ publicKey (stateOf w user) = Some (snd (getNewAddress k))
    | None =>
        address (stateOf w user) = None /\ publicKey (stateOf w user) = None
    end.

(** A truthy [address] property: present and not the empty string. *)
Definition hasAddress (st : userState) : bool :=
  match address st with
  | Some (String _ _) => true
  | _ => false
  end.

(** How one update may change the session of its sender: the address and
    keys stay, or are created where no address was; [withdrawalRequested]
    stays or becomes true; the amount stays, or a positive one is stored
    where none was, in a session with a withdrawal requested. *)
Definition evolved {wallet : Wallet} (st st' : userState) : Prop :=
  ((address st' = address st /\ privateKey st' = privateKey st
    /\ publicKey st' = publicKey st)
   \/ (hasAddress st = false
       /\ exists k, privateKey st' = Some k
                    /\ address st' = Some (fst (getNewAddress k))
                    /\ publicKey st' = Some (snd (getNewAddress k))))
  /\ (withdrawalRequested st' = withdrawalRequested st
      \/ withdrawalRequested st' = Some true)
  /\ (withdrawalAmount st' = withdrawalAmount st
      \/ (noAmount st = true
          /\ exists x, withdrawalAmount st' = Some x
                       /\ gt_zero x = true
                       /\ withdrawalRequested st' = Some true)).

(** The handler changes the session of [user] in that way only. *)
Definition evolves {wallet : Wallet} (user : Z) {A} (m : M A) : Prop :=
  forall w, evolved (stateOf w user) (stateOf (snd (m w)) user).

(** The handler only adds events to the trace, each satisfying [Q]. *)
Definition emits (Q : event -> Prop) {A} (m : M A) : Prop :=
  forall w, exists evs, trace (snd (m w)) = trace w ++ evs /\ Forall Q evs.

(** The context of an update. *)
Definition contextOf (u : update) : context :=
  match u with
  | Command_start ctx | Callback _ ctx | Text ctx => ctx
  end.

(** A request is a POST to a path of the API host whose headers carry
    the credentials of the environment, a timestamp, and the signature of
    that timestamp, the method, the path and the very body sent. *)
Definition signedAsSent {platform : Platform} (r : request) : Prop :=
  req_method r = "POST"%string
  /\ exists t path,
       req_url r = (apiBaseUrl ++ path)%string
       /\ header "OK-ACCESS-TIMESTAMP" (req_headers r) = Some (toISOString t)
       /\ header "OK-ACCESS-SIGN" (req_headers r)
          = Some (hmac_sha256_base64 OKX_API_SECRET_KEY
                    (toISOString t ++ "POST" ++ path ++ req_body r)%string)
       /\ header "OK-ACCESS-KEY" (req_headers r) = Some OKX_API_KEY
       /\ header "OK-ACCESS-PASSPHRASE" (req_headers r) = Some OKX_API_PASSPHRASE
       /\ header "OK-ACCESS-PROJECT" (req_headers r) = Some OKX_PROJECT_ID
       /\ header "Content-Type" (req_headers r) = Some "application/json"%string.

(** An event in order for the update [ctx]: a message or a pin in the chat
    of the update, the answer to the sender's query, a request signed as
    sent, a signing call for the chain of the bot. *)
Definition orderly {platform : Platform} (ctx : context) (ev : event) : Prop :=
  match ev with
  | Reply chat _ _ => chat = chat_id ctx
  | Pin chat _ => chat = chat_id ctx
  | Answer user => user = from_id ctx
  | Fetch r => signedAsSent r
  | Sign chainId _ data =>
      JSNumber.toString chainId = "196"%string
      /\ tx_chainId data = "196"%string
  end.

(** The text of [n] hundredths with two decimals, as a user types it,
    and the integers from [a], [len] of them. *)
Definition cents (n : Z) : string :=
  (string_of_Z (n / 100) ++ "." ++ pad_left 2 (string_of_Z (n mod 100)))%string.

Definition range (a len : Z) : list Z :=
  map (fun i => a + Z.of_nat i) (seq 0 (Z.to_nat len)).

Definition exactInWei (n : Z) : bool :=
  String.eqb (txAmountInWei (Some (parseFloat (cents n))))
    (string_of_Z (n * 10 ^ 16)).

(** The amount string is in exponent notation: a mantissa, then [e+21]. *)
Definition inExponentNotation (n : Z) : bool :=
  let s := txAmountInWei (Some (parseFloat (string_of_Z n))) in
  String.eqb (str_drop (String.length s - 4) s) "e+21"
  && negb (String.eqb s (string_of_Z (n * 10 ^ 18))).

(** Two worlds that [user] cannot tell apart: the same session for
    [user], the same counters; the other sessions and the past trace may
    differ. *)
Definition alike (user : Z) (w w' : world) : Prop :=
  userStates w !! user = userStates w' !! user
  /\ sent w = sent w' /\ clock w = clock w' /\ entropy w = entropy w'.

(** The handler reads nothing else: from worlds alike for [user] it gives
    the same result and the same new events, and leaves worlds alike. *)
Definition blind (user : Z) {A} (m : M A) : Prop :=
  forall w w', alike user w w' ->
    fst (m w) = fst (m w')
    /\ alike user (snd (m w)) (snd (m w'))
    /\ exists evs,
         trace (snd (m w)) = trace w ++ evs
         /\ trace (snd (m w')) = trace w' ++ evs.

(** What the gate answers to a text it does not let through. *)
Definition reminder (ctx : context) (w : world) : result unit * world :=
  (Ok tt,
   {| userStates := userStates w; sent := S (sent w); clock := clock w;
      entropy := entropy w;
      trace := trace w ++ [Reply (chat_id ctx)
                             "Please select an option from the menu." plain] |}).

(** Messages of the handlers. *)
Definition addressPrompt : string :=
  "Please respond with the XLayer address where you would like to receive the OKB.".

Definition keyWarning : string :=
  "Your private key will be in the next message. Do NOT share it with anyone, and make sure you store it in a safe place.".

Definition noWallet : string :=
  "No wallet found for this user. Please start a new session.".

Definition pinFailure : string :=
  "Failed to pin the message. Ensure the bot has the proper permissions.".

End Laws.

(* ===================================================================== *)
(** ** Properties *)
(* ===================================================================== *)

Import JS Bot.

Arguments signInfoBody : simpl never.
Arguments broadcastBody : simpl never.
Arguments headersFor : simpl never.
Arguments txAmountInWei : simpl never.
Arguments successMessage : simpl never.
Arguments parseInt : simpl never.
Arguments getRequestUrl : simpl never.
Arguments parseFloat : simpl never.

(** Unfold the monad down to the worlds. *)
Ltac run :=
  unfold sendReply, post, getHeaders, sign, fetch, now, reply, emit, lift,
    updateUserState, readState, throw, try_catch;
  unfold mbind, mret, M_bind, M_ret; simpl.

(** The session after some replies: the map is updated at the sender
    alone, and only [messageId] is overridden. *)
Ltac finish :=
  unfold stateOf; simpl;
  repeat split; intros;
  rewrite ?lookup_insert_eq, ?lookup_insert_ne by congruence;
  simpl; rewrite ?lookup_insert_eq; simpl; auto.

Section Properties.
Context {wallet : Wallet} {platform : Platform}.

Lemma stateOf_insert w user st other :
  default noState (<[user := st]> (userStates w) !! other)
  = if decide (user = other) then st else stateOf w other.
Proof.
  unfold stateOf. rewrite lookup_insert. by case_decide.
Qed.

(** A comparison with zero is false exactly when the number is NaN, a
    zero or negative. *)
Lemma not_positive (x : number) :
  gt_zero x = false <-> isNaN x || le_zero x = true.
Proof.
  destruct x as [[]|[]| |[] m e]; by split.
Qed.

(** The destination step, in full: it returns normally, its events are
    those of one [attempt], and of the session it changes [messageId]
    alone. *)
Lemma handleWithdrawal_destination (ctx : context) (w : world) :
  let user := from_id ctx in
  let st := stateOf w user in
  noAmount st = false ->
  exists evs w',
    handleWithdrawal ctx w = (Ok tt, w')
    /\ trace w' = trace w ++ evs
    /\ attempt (chat_id ctx) st (message_text ctx) (clock w) evs
    /\ (forall other, other <> user ->
          userStates w' !! other = userStates w !! other)
    /\ address (stateOf w' user) = address st
    /\ privateKey (stateOf w' user) = privateKey st
    /\ publicKey (stateOf w' user) = publicKey st
    /\ withdrawalRequested (stateOf w' user) = withdrawalRequested st
    /\ withdrawalAmount (stateOf w' user) = withdrawalAmount st
    /\ entropy w' = entropy w.
Proof.
  intros user st Hamt.
  unfold handleWithdrawal. run. fold user. fold st. rewrite Hamt.
  pose proof (eq_refl : addressCheck (message_text ctx) = _) as Hvalid.
  unfold addressCheck at 2 in Hvalid.
  destruct (validAddress (message_text ctx)) as [result|];
    [destruct (JS.truthy result)|]; simpl.
  2:{ eexists _, _. split; [reflexivity|]. simpl.
      repeat split; auto. by constructor. }
  2:{ eexists _, _. split; [reflexivity|]. simpl.
      repeat split; auto. by constructor. }
  unfold withdraw. run. fold user. fold st.
  pose proof (eq_refl : signInfoOutcome st (message_text ctx) (clock w) = _) as Hsi.
  unfold signInfoOutcome at 2, signInfoRequest, requestAt in Hsi.
  destruct (fetch_json _) as [v|] eqn:Hf in Hsi |- *; simpl.
  2:{ eexists _, _. split; [reflexivity|]. simpl. rewrite <- !app_assoc.
      split; [reflexivity|]. split; [by eapply attempt_signInfo_failed|].
      finish. }
  destruct (readSignInfo v _ _) as [e|data] eqn:Hread in Hsi |- *; simpl.
  { eexists _, _. split; [reflexivity|]. simpl. rewrite <- !app_assoc.
    split; [reflexivity|]. split; [by eapply attempt_signInfo_failed|].
    finish. }
  destruct (signTransaction _ _ data) as [signedTx|] eqn:Hsign; simpl.
  2:{ eexists _, _. split; [reflexivity|]. simpl. rewrite <- !app_assoc.
      split; [reflexivity|]. split; [by eapply attempt_signing_failed|].
      finish. }
  pose proof (eq_refl : broadcastOutcome st signedTx (clock w) = _) as Hbc.
  unfold broadcastOutcome at 2, broadcastRequest, requestAt in Hbc.
  destruct (fetch_json _) as [v2|] eqn:Hf2 in Hbc |- *; simpl.
  2:{ eexists _, _. split; [reflexivity|]. simpl. rewrite <- !app_assoc.
      split; [reflexivity|]. split; [by eapply attempt_broadcast_failed|].
      finish. }
  destruct (readBroadcast v2) as [e|orderId] eqn:Hread2 in Hbc |- *; simpl.
  { eexists _, _. split; [reflexivity|]. simpl. rewrite <- !app_assoc.
    split; [reflexivity|]. split; [by eapply attempt_broadcast_failed|].
    finish. }
  eexists _, _. split; [reflexivity|]. simpl. rewrite <- !app_assoc.
  split; [reflexivity|]. split; [by eapply attempt_succeeded|].
  finish.
Qed.



(** *** The shape of a run, for the theorems below *)

Lemma eventsOf_app {A} (m : M A) (w w' : world) (res : result A) evs :
  m w = (res, w') -> trace w' = trace w ++ evs -> eventsOf m w = evs.
Proof.
  intros Hrun Htrace. unfold eventsOf, exec. rewrite Hrun. simpl.
  rewrite Htrace. by rewrite drop_app_length.
Qed.

(** The amount step: one chat message, no request, nothing signed. *)
Lemma handleWithdrawal_amount (ctx : context) (w : world) :
  noAmount (stateOf w (from_id ctx)) = true ->
  exists text options w',
    handleWithdrawal ctx w = (Ok tt, w')
    /\ trace w' = trace w ++ [Reply (chat_id ctx) text options].
Proof.
  intros Hno. unfold handleWithdrawal. run. rewrite Hno.
  destruct (isNaN _ || le_zero _); simpl;
    eexists _, _, _; (split; [reflexivity|]); reflexivity.
Qed.

Lemma readSignInfo_accepted v d amount data :
  readSignInfo v d amount = inr data -> accepted v = true.
Proof.
  unfold readSignInfo, accepted, mbind, exn_bind.
  destruct (get v "code") as [e|code]; [done|].
  destruct (strict_eq_string code "0"); [done|]. simpl.
  by destruct (get v "msg").
Qed.

Lemma readBroadcast_accepted v orderId :
  readBroadcast v = inr orderId -> accepted v = true.
Proof.
  unfold readBroadcast, accepted, mbind, exn_bind.
  destruct (get v "code") as [e|code]; [done|].
  destruct (strict_eq_string code "0"); [done|].
  by destruct (get v "msg").
Qed.



(** Where in the sign-info response the parameters of the transaction
    are read: [data[0].nonce], [data[0].gasPrice.normal] and
    [data[0].gasLimit] of a response that carries the success code. *)
Lemma readSignInfo_fields v d amount data :
  readSignInfo v d amount = inr data ->
  exists items txData gasPrice,
    accepted v = true
    /\ get v "data" = inr items
    /\ first items = inr txData
    /\ get txData "nonce" = inr (tx_nonce data)
    /\ get txData "gasPrice" = inr gasPrice
    /\ get gasPrice "normal" = inr (tx_gasPrice data)
    /\ get txData "gasLimit" = inr (tx_gasLimit data).
Proof.
  intros Hread. pose proof (readSignInfo_accepted _ _ _ _ Hread) as Hacc.
  revert Hread. unfold readSignInfo, mbind, exn_bind.
  destruct (get v "code") as [e|code]; [done|].
  destruct (strict_eq_string code "0"); simpl; [|by destruct (get v "msg")].
  destruct (get v "data") as [e|items] eqn:Hdata; [done|].
  destruct (first items) as [e|txData] eqn:Hfirst; [done|].
  destruct (get txData "nonce") as [e|nonce] eqn:Hnonce; [done|].
  destruct (get txData "gasPrice") as [e|gasPrice] eqn:Hprice; [done|].
  destruct (get gasPrice "normal") as [e|normal] eqn:Hnormal; [done|].
  destruct (get txData "gasLimit") as [e|gasLimit] eqn:Hlimit; [done|].
  intros [= <-]. exists items, txData, gasPrice. by repeat split.
Qed.


Lemma signInfoOutcome_accepted st d t data :
  signInfoOutcome st d t = inr data ->
  exists v, fetch_json (signInfoRequest st d t) = Some v /\ accepted v = true.
Proof.
  unfold signInfoOutcome.
  destruct (fetch_json _) as [v|]; [|done].
  intros H. exists v. split; [done|]. by eapply readSignInfo_accepted.
Qed.

Lemma broadcastOutcome_accepted st signedTx t orderId :
  broadcastOutcome st signedTx t = inr orderId ->
  exists v, fetch_json (broadcastRequest st signedTx t) = Some v
            /\ readBroadcast v = inr orderId /\ accepted v = true.
Proof.
  unfold broadcastOutcome.
  destruct (fetch_json _) as [v|]; [|done].
  intros H. exists v. repeat split; [done|]. by eapply readBroadcast_accepted.
Qed.

Lemma paths_differ : getRequestUrl broadcastPath <> getRequestUrl signInfoPath.
Proof. discriminate. Qed.

Lemma attempt_requests chat st d t evs :
  attempt chat st d t evs -> requestsOf evs = requestsIssued st d t.
Proof.
  unfold requestsIssued.
  destruct 1 as [Hv|Hv|e Hv Hsi|data Hv Hsi Hsg|data stx e Hv Hsi Hsg Hbc
                |data stx o Hv Hsi Hsg Hbc];
    rewrite Hv; try rewrite Hsi; try rewrite Hsg; reflexivity.
Qed.

(** Every run of [handleWithdrawal] returns normally. *)
Lemma handleWithdrawal_returns (ctx : context) (w : world) :
  fst (handleWithdrawal ctx w) = Ok tt.
Proof.
  destruct (noAmount (stateOf w (from_id ctx))) eqn:Hno.
  - destruct (handleWithdrawal_amount ctx w Hno) as (?&?&?&->&_). done.
  - destruct (handleWithdrawal_destination ctx w Hno) as (?&?&->&_). done.
Qed.

(** The events of a destination step are those of one [attempt]. *)
Lemma eventsOf_destination (ctx : context) (w : world) :
  noAmount (stateOf w (from_id ctx)) = false ->
  attempt (chat_id ctx) (stateOf w (from_id ctx)) (message_text ctx)
    (clock w) (eventsOf (handleWithdrawal ctx) w).
Proof.
  intros Hno.
  destruct (handleWithdrawal_destination ctx w Hno) as (evs&w'&Hrun&Htr&Hatt&_).
  by rewrite (eventsOf_app _ _ _ _ _ Hrun Htr).
Qed.

Lemma eventsOf_amount (ctx : context) (w : world) :
  noAmount (stateOf w (from_id ctx)) = true ->
  exists text options,
    eventsOf (handleWithdrawal ctx) w = [Reply (chat_id ctx) text options].
Proof.
  intros Hno.
  destruct (handleWithdrawal_amount ctx w Hno) as (text&options&w'&Hrun&Htr).
  exists text, options. by rewrite (eventsOf_app _ _ _ _ _ Hrun Htr).
Qed.

(** C4. An amount that does not parse as a positive number is refused
    in place: while no amount is stored, [handleWithdrawal] on such a
    text returns normally, sends the one error message through
    [ctx.reply], and leaves the whole session table as it was. So
    [withdrawalAmount] stays unset, [withdrawalRequested] and
    [messageId] keep their values, and a reply to the same prompt is
    handled as an amount again. *)
Theorem invalid_amount_is_refused_in_place (ctx : context) (w : world) :
  noAmount (stateOf w (from_id ctx)) = true ->
  gt_zero (parseFloat (message_text ctx)) = false ->
  exists w',
    handleWithdrawal ctx w = (Ok tt, w')
    /\ trace w' = trace w ++ [Reply (chat_id ctx) invalidAmount plain]
    /\ userStates w' = userStates w
    /\ noAmount (stateOf w' (from_id ctx)) = true.
Proof.
  intros Hno Hbad. apply not_positive in Hbad.
  unfold handleWithdrawal. run. rewrite Hno, Hbad. simpl.
  eexists. split; [reflexivity|]. simpl. auto.
Qed.

(** C10. A text message that is not a reply to the message recorded as
    the bot's last one never reaches the handler: whatever the handler
    and whatever the session holds (a pending withdrawal included),
    the only effect is the menu reminder, and the session table is
    unchanged. *)
Theorem text_outside_a_reply_is_ignored (ctx : context) (w : world) :
  ~ (exists m, reply_to_message ctx = Some m
               /\ messageId (stateOf w (from_id ctx)) = Some m) ->
  let w' :=
    {| userStates := userStates w; sent := S (sent w); clock := clock w;
       entropy := entropy w;
       trace := trace w ++ [Reply (chat_id ctx)
                              "Please select an option from the menu." plain] |} in
  (forall handler, handleUserState ctx handler w = (Ok tt, w'))
  /\ onMessageText ctx w = (Ok tt, w')
  /\ withdrawalRequested (stateOf w' (from_id ctx))
     = withdrawalRequested (stateOf w (from_id ctx))
  /\ withdrawalAmount (stateOf w' (from_id ctx))
     = withdrawalAmount (stateOf w (from_id ctx)).
Proof.
  intros Hnot w'.
  assert (Hgate : repliesToLast ctx (stateOf w (from_id ctx)) = false).
  { unfold repliesToLast.
    destruct (reply_to_message ctx) as [r|] eqn:Hr; [|done].
    destruct (messageId _) as [m|] eqn:Hm; [|done].
    apply Z.eqb_neq. intros ->. apply Hnot. by exists m. }
  assert (Hany : forall handler, handleUserState ctx handler w = (Ok tt, w')).
  { intros handler. unfold handleUserState. run. by rewrite Hgate. }
  split; [exact Hany|]. split; [apply Hany|]. by split.
Qed.

(** C3. A destination that fails the address validation is not
    refused. The destination step tests the awaited result of
    [wallet.validAddress] itself and never the verdict in it. When the
    result is an object whose [isValid] is [false], which is how the
    wallet SDK reports a destination that fails its validation, the
    object is truthy: the step does not answer with the
    invalid-destination message; it announces the withdrawal and sends
    the sign-info request, with the refused text as [toAddr]. *)
Theorem failed_validation_reaches_the_service
    (ctx : context) (w : world) (result : value) :
  let st := stateOf w (from_id ctx) in
  let d := message_text ctx in
  let evs := eventsOf (handleWithdrawal ctx) w in
  noAmount st = false ->
  validAddress d = Some result ->
  get result "isValid" = inr (VBool false) ->
  (exists rest,
     evs = initiating (chat_id ctx)
           :: Fetch (signInfoRequest st d (clock w)) :: rest)
  /\ req_url (signInfoRequest st d (clock w)) = getRequestUrl signInfoPath
  /\ req_body (signInfoRequest st d (clock w))
     = stringify_object
         [ ("chainIndex", VStr "196");
           ("fromAddr", of_option (address st));
           ("toAddr", VStr d);
           ("txAmount", VStr (txAmountInWei (withdrawalAmount st))) ]%string
  /\ ~ In (Reply (chat_id ctx) invalidDestination plain) evs.
Proof.
  intros st d evs Hno Hresult Hverdict.
  assert (Hcheck : addressCheck d = Some true).
  { unfold addressCheck. rewrite Hresult. by destruct result. }
  pose proof (eventsOf_destination ctx w Hno) as Hatt. fold st d evs in Hatt.
  split; [|split; [done|split; [done|]]].
  - destruct Hatt; try congruence; by eexists.
  - destruct Hatt; try congruence; simpl;
      unfold initiating, signing, failureMessage, invalidDestination;
      intros Hin;
      repeat (destruct Hin as [Hin|Hin]; try discriminate Hin);
      by destruct Hin.
Qed.

(** X24. The guard of the destination step. When the awaited result of
    [wallet.validAddress] is falsy, or the call throws, the step ends
    before any request is built: it returns normally with a single chat
    message, no request is fetched, nothing is signed, and the session
    table is unchanged. The message is the invalid-destination one for
    a falsy result and the failure one for a call that throws. *)
Theorem falsy_address_check_sends_no_request (ctx : context) (w : world) :
  let d := message_text ctx in
  noAmount (stateOf w (from_id ctx)) = false ->
  (forall result, validAddress d = Some result -> JS.truthy result = false) ->
  exists evs w',
    handleWithdrawal ctx w = (Ok tt, w')
    /\ trace w' = trace w ++ evs
    /\ requestsOf evs = []
    /\ signingsOf evs = []
    /\ userStates w' = userStates w
    /\ (forall result, validAddress d = Some result ->
        evs = [Reply (chat_id ctx) invalidDestination plain])
    /\ (validAddress d = None ->
        evs = [Reply (chat_id ctx) failureMessage plain]).
Proof.
  intros d Hamt Hbad. subst d.
  unfold handleWithdrawal. run. rewrite Hamt.
  destruct (validAddress (message_text ctx)) as [result|].
  - rewrite (Hbad result eq_refl). simpl.
    eexists _, _. split; [reflexivity|]. simpl.
    repeat split; auto. discriminate.
  - simpl. eexists _, _. split; [reflexivity|]. simpl.
    repeat split; auto. discriminate.
Qed.

(** C8. [getOrCreateAddress] is idempotent, for a wallet whose addresses
    are never the empty string: a call returns an address, and a second
    call returns the same address and leaves the world as the first
    call left it. The stored address and keys are therefore not
    replaced, and no further mnemonic is drawn. *)
Theorem getOrCreateAddress_idempotent (user : Z) (w : world) :
  (forall key, fst (getNewAddress key) <> EmptyString) ->
  exists a w1,
    getOrCreateAddress user w = (Ok a, w1)
    /\ getOrCreateAddress user w1 = (Ok a, w1)
    /\ address (stateOf w1 user) = Some a.
Proof.
  intros Hnonempty.
  unfold getOrCreateAddress at 1. run.
  destruct (address (stateOf w user)) as [[|c r]|] eqn:Haddr.
  2:{ exists (String c r), w. unfold getOrCreateAddress. run.
      by rewrite Haddr. }
  all: unfold drawMnemonic; simpl;
    eexists _, _; (split; [reflexivity|]);
    unfold getOrCreateAddress; run; unfold stateOf; simpl;
    rewrite lookup_insert_eq; simpl;
    match goal with
    | |- context [getNewAddress ?k] =>
        specialize (Hnonempty k); destruct (fst (getNewAddress k)); done
    end.
Qed.

(** C9. The headers of a request carry the signature of exactly
    [timestamp + UPPERCASE(method) + path + body] under the API secret,
    the body being the empty string when absent, and the timestamp
    header is the very timestamp that was signed: the clock is read
    once. *)
Theorem getHeaders_signs_what_it_stamps
    (method path : string) (body : option string) (w : world) :
  exists headers,
    let timestamp := toISOString (clock w) in
    let signed :=
      (timestamp ++ toUpperCase method ++ path
       ++ match body with Some b => b | None => EmptyString end)%string in
    getHeaders method path body w
      = (Ok headers,
         {| userStates := userStates w; sent := sent w;
            clock := S (clock w); entropy := entropy w;
            trace := trace w |})
    /\ header "OK-ACCESS-SIGN" headers
       = Some (hmac_sha256_base64 OKX_API_SECRET_KEY signed)
    /\ header "OK-ACCESS-TIMESTAMP" headers = Some timestamp.
Proof.
  eexists. unfold getHeaders. run. split; [reflexivity|].
  destruct body; by split.
Qed.

Ltac classify_events :=
  repeat (apply List.Forall_cons;
          [first [ left; reflexivity
                 | right; left; reflexivity
                 | right; right; left; reflexivity
                 | right; right; right; left; eexists; reflexivity
                 | right; right; right; right; do 3 eexists; reflexivity ]|]);
  apply List.Forall_nil.

Lemma successMessage_not_failure amount d orderId :
  successMessage amount d orderId <> failureMessage.
Proof. unfold successMessage. simpl. discriminate. Qed.

(** No event of the list reports a success to the user. *)
Lemma no_success_among user evs :
  Forall (fun ev => ev = initiating user
                    \/ ev = Reply user failureMessage plain
                    \/ ev = Reply user invalidDestination plain
                    \/ (exists r, ev = Fetch r)
                    \/ (exists c k data, ev = Sign c k data)) evs ->
  forall amount d orderId options,
    ~ In (Reply user (successMessage amount d orderId) options) evs.
Proof.
  intros Hall amount d orderId options Hin.
  rewrite Forall_forall in Hall.
  apply list_elem_of_In in Hin. apply Hall in Hin.
  unfold successMessage in Hin.
  destruct Hin as [H|[H|[H|[[r H]|(c&k&data&H)]]]]; discriminate.
Qed.

(** C7. When a request of the withdrawal is answered with a code other
    than the string 0, the run still returns normally, its last event
    is the failure message, and no success message is sent. When that
    request is the sign-info one, nothing is signed and it is the only
    request: no broadcast follows. The failure message differs from
    every success message. *)
Theorem refused_response_ends_in_failure
    (ctx : context) (w : world) (r : request) (v : value) :
  let chat := chat_id ctx in
  let evs := eventsOf (handleWithdrawal ctx) w in
  In r (requestsOf evs) ->
  fetch_json r = Some v ->
  accepted v = false ->
  fst (handleWithdrawal ctx w) = Ok tt
  /\ last evs = Some (Reply chat failureMessage plain)
  /\ (forall amount d orderId options,
        ~ In (Reply chat (successMessage amount d orderId) options) evs)
  /\ (req_url r = getRequestUrl signInfoPath ->
      signingsOf evs = [] /\ requestsOf evs = [r])
  /\ (forall amount d orderId,
        successMessage amount d orderId <> failureMessage).
Proof.
  intros chat evs Hin Hfetch Hrefused.
  split; [apply handleWithdrawal_returns|].
  assert (Hlast : forall A B : Prop, A -> B ->
            A /\ B /\ (forall amount d orderId,
                         successMessage amount d orderId <> failureMessage)).
  { intros A B HA HB. repeat split; auto using successMessage_not_failure. }
  destruct (noAmount (stateOf w (from_id ctx))) eqn:Hno.
  { destruct (eventsOf_amount ctx w Hno) as (text&options&Hevs).
    subst evs. rewrite Hevs in Hin. destruct Hin. }
  pose proof (eventsOf_destination ctx w Hno) as Hatt.
  fold chat evs in Hatt.
  destruct Hatt as [Hv|Hv|e Hv Hsi|data Hv Hsi Hsg|data stx e Hv Hsi Hsg Hbc
                   |data stx o Hv Hsi Hsg Hbc]; simpl in Hin.
  - destruct Hin.
  - destruct Hin.
  - destruct Hin as [<-|[]].
    split; [done|]. apply Hlast; [|done].
    apply no_success_among. classify_events.
  - destruct Hin as [<-|[]].
    apply signInfoOutcome_accepted in Hsi as (v'&Hf&Hacc). congruence.
  - destruct Hin as [<-|[<-|[]]].
    + apply signInfoOutcome_accepted in Hsi as (v'&Hf&Hacc). congruence.
    + split; [done|]. apply Hlast.
      * apply no_success_among. classify_events.
      * intros Hurl. by apply paths_differ in Hurl.
  - destruct Hin as [<-|[<-|[]]].
    + apply signInfoOutcome_accepted in Hsi as (v'&Hf&Hacc). congruence.
    + apply broadcastOutcome_accepted in Hbc as (v'&Hf&_&Hacc). congruence.
Qed.

Lemma stateOf_setKey user k w :
  stateOf (setKey user k w) user
  = {| messageId := messageId (stateOf w user);
       address := address (stateOf w user);
       privateKey := k;
       publicKey := publicKey (stateOf w user);
       withdrawalRequested := withdrawalRequested (stateOf w user);
       withdrawalAmount := withdrawalAmount (stateOf w user) |}.
Proof. unfold stateOf at 1, setKey. simpl. by rewrite lookup_insert_eq. Qed.

(** The requests of a run, whichever step it takes. *)
Lemma requests_of_run (ctx : context) (w : world) :
  requestsOf (eventsOf (handleWithdrawal ctx) w)
  = if noAmount (stateOf w (from_id ctx)) then []
    else requestsIssued (stateOf w (from_id ctx)) (message_text ctx) (clock w).
Proof.
  destruct (noAmount _) eqn:Hno.
  - by destruct (eventsOf_amount ctx w Hno) as (text&options&->).
  - eapply attempt_requests, eventsOf_destination, Hno.
Qed.

(** C5. The requests of a withdrawal do not carry the private key.
    Every request the handler issues is either the sign-info request,
    whose body is the object of chain id, sender address, destination
    and amount, or the broadcast request, whose body is the object of a
    transaction the wallet signed, chain id and sender address. And
    the requests depend on the stored key through the signed
    transaction only: with any other key that signs alike, the same
    requests are issued. *)
Theorem private_key_is_never_sent (ctx : context) (w : world) :
  let user := from_id ctx in
  let st := stateOf w user in
  let chain := parseInt xLayerChainId in
  (forall r, In r (requestsOf (eventsOf (handleWithdrawal ctx) w)) ->
     (req_url r = getRequestUrl signInfoPath
      /\ req_headers r
         = headersFor (toISOString (clock w)) "POST" signInfoPath (req_body r)
      /\ req_body r
         = stringify_object
             [ ("chainIndex", VStr xLayerChainId);
               ("fromAddr", of_option (address st));
               ("toAddr", VStr (message_text ctx));
               ("txAmount", VStr (txAmountInWei (withdrawalAmount st))) ]%string)
     \/ (req_url r = getRequestUrl broadcastPath
         /\ req_headers r
            = headersFor (toISOString (S (clock w))) "POST" broadcastPath
                (req_body r)
         /\ exists data signedTx,
              signTransaction chain (privateKey st) data = Some signedTx
              /\ req_body r
                 = stringify_object
                     [ ("signedTx", VStr signedTx);
                       ("chainIndex", VStr xLayerChainId);
                       ("address", of_option (address st)) ]%string))
  /\ (forall k,
        (forall data, signTransaction chain k data
                      = signTransaction chain (privateKey st) data) ->
        requestsOf (eventsOf (handleWithdrawal ctx) (setKey user k w))
        = requestsOf (eventsOf (handleWithdrawal ctx) w)).
Proof.
  intros user st chain. split.
  - intros r. rewrite requests_of_run. fold user st.
    destruct (noAmount st); [intros []|].
    unfold requestsIssued.
    destruct (addressCheck _) as [[]|]; [|intros []..].
    intros [<-|Hin]; [left; by repeat split|].
    destruct (signInfoOutcome _ _ _) as [e|data]; [destruct Hin|].
    fold chain in Hin.
    destruct (signTransaction chain _ data) as [signedTx|] eqn:Hsg;
      [|destruct Hin].
    destruct Hin as [<-|[]]. right. repeat split. by exists data, signedTx.
  - intros k Hsame. rewrite !requests_of_run. fold user st.
    rewrite stateOf_setKey. fold st. unfold noAmount at 1. simpl.
    fold (noAmount st). destruct (noAmount st); [done|].
    unfold requestsIssued, signInfoOutcome, signInfoRequest,
      broadcastRequest. simpl.
    destruct (addressCheck _) as [[]|]; [|done..]. f_equal.
    destruct (fetch_json _) as [v|]; [|done].
    destruct (readSignInfo _ _ _) as [e|data]; [done|].
    fold chain. by rewrite Hsame.
Qed.



End Properties.

(* ===================================================================== *)
(** ** Laws of the monad's operations *)
(* ===================================================================== *)

Section Combinators.
Import Laws.
Context {wallet : Wallet} {platform : Platform}.

Lemma confined_ret user {A} (a : A) : confined user (mret a).
Proof. by intros w other _. Qed.

Lemma confined_throw user {A} e : confined user (throw (A := A) e).
Proof. by intros w other _. Qed.

Lemma confined_bind user {A B} (m : M A) (f : A -> M B) :
  confined user m -> (forall a, confined user (f a)) ->
  confined user (m ≫= f).
Proof.
  intros Hm Hf w other Hne. unfold mbind, M_bind.
  specialize (Hm w other Hne). destruct (m w) as [[a|e] w1]; simpl in *.
  - by rewrite (Hf a w1 other Hne).
  - done.
Qed.

Lemma confined_try_catch user {A} (body : M A) (handler : exn -> M A) :
  confined user body -> (forall e, confined user (handler e)) ->
  confined user (try_catch body handler).
Proof.
  intros Hm Hf w other Hne. unfold try_catch.
  specialize (Hm w other Hne). destruct (body w) as [[a|e] w1]; simpl in *.
  - done.
  - by rewrite (Hf e w1 other Hne).
Qed.

Lemma confined_lift user {A} (r : exn + A) : confined user (lift r).
Proof. destruct r; [apply confined_throw|apply confined_ret]. Qed.

Lemma confined_emit user ev : confined user (emit ev).
Proof. by intros w other _. Qed.

Lemma confined_readState user id : confined user (readState id).
Proof. by intros w other _. Qed.

Lemma confined_now user : confined user now.
Proof. by intros w other _. Qed.

Lemma confined_drawMnemonic user : confined user drawMnemonic.
Proof. by intros w other _. Qed.

Lemma confined_reply user ctx text options :
  confined user (reply ctx text options).
Proof. by intros w other _. Qed.

Lemma confined_updateUserState user st : confined user (updateUserState user st).
Proof.
  intros w other Hne. unfold updateUserState. simpl.
  by rewrite lookup_insert_ne.
Qed.

Lemma confined_fetch user r : confined user (fetch r).
Proof.
  unfold fetch. apply confined_bind; [apply confined_emit|]. intros _.
  destruct (fetch_json r); [apply confined_ret|apply confined_throw].
Qed.

End Combinators.

Section Evolution.
Import Laws.
Context {wallet : Wallet} {platform : Platform}.

Lemma evolved_refl st : evolved st st.
Proof. repeat split; auto. Qed.

Lemma evolved_same st st' :
  address st' = address st -> privateKey st' = privateKey st ->
  publicKey st' = publicKey st ->
  withdrawalRequested st' = withdrawalRequested st ->
  withdrawalAmount st' = withdrawalAmount st ->
  evolved st st'.
Proof. intros. repeat split; auto. Qed.

Lemma noAmount_same st st' :
  withdrawalAmount st' = withdrawalAmount st -> noAmount st' = noAmount st.
Proof. unfold noAmount. by intros ->. Qed.

Lemma hasAddress_same st st' :
  address st' = address st -> hasAddress st' = hasAddress st.
Proof. unfold hasAddress. by intros ->. Qed.

Lemma evolved_trans st1 st2 st3 :
  evolved st1 st2 -> evolved st2 st3 -> evolved st1 st3.
Proof.
  intros (K1 & Q1 & A1) (K2 & Q2 & A2). split; [|split].
  - destruct K2 as [(a2 & k2 & p2)|(Hno & k & Hk & Ha & Hp)].
    + destruct K1 as [(a1 & k1 & p1)|(Hno & k & Hk & Ha & Hp)].
      * left. repeat split; congruence.
      * right. split; [done|]. exists k. repeat split; congruence.
    + right. split; [|by exists k].
      destruct K1 as [(a1 & k1 & p1)|(Hno1 & _)]; [|done].
      by rewrite <- (hasAddress_same _ _ a1).
  - destruct Q2 as [-> | ->]; auto.
  - destruct A2 as [Ha2|(Hno & x & Hx & Hpos & Hreq)].
    + destruct A1 as [Ha1|(Hno & x & Hx & Hpos & Hreq)].
      * left. congruence.
      * right. split; [done|]. exists x. repeat split; [congruence|done|].
        destruct Q2 as [-> | ->]; done.
    + right. split; [|by exists x].
      destruct A1 as [Ha1|(Hno1 & _)]; [|done].
      by rewrite <- (noAmount_same _ _ Ha1).
Qed.

Lemma evolves_ret user {A} (a : A) : evolves user (mret a).
Proof. intros w. apply evolved_refl. Qed.

Lemma evolves_throw user {A} e : evolves user (throw (A := A) e).
Proof. intros w. apply evolved_refl. Qed.

Lemma evolves_bind user {A B} (m : M A) (f : A -> M B) :
  evolves user m -> (forall a, evolves user (f a)) -> evolves user (m ≫= f).
Proof.
  intros Hm Hf w. unfold mbind, M_bind.
  specialize (Hm w). destruct (m w) as [[a|e] w1]; simpl in *; [|done].
  eapply evolved_trans; [exact Hm|apply Hf].
Qed.

Lemma evolves_try_catch user {A} (body : M A) (handler : exn -> M A) :
  evolves user body -> (forall e, evolves user (handler e)) ->
  evolves user (try_catch body handler).
Proof.
  intros Hm Hf w. unfold try_catch.
  specialize (Hm w). destruct (body w) as [[a|e] w1]; simpl in *; [done|].
  eapply evolved_trans; [exact Hm|apply Hf].
Qed.

Lemma evolves_lift user {A} (r : exn + A) : evolves user (lift r).
Proof. destruct r; [apply evolves_throw|apply evolves_ret]. Qed.

Lemma evolves_emit user ev : evolves user (emit ev).
Proof. intros w. apply evolved_refl. Qed.

Lemma evolves_readState user id : evolves user (readState id).
Proof. intros w. apply evolved_refl. Qed.

Lemma evolves_now user : evolves user now.
Proof. intros w. apply evolved_refl. Qed.

Lemma evolves_reply user ctx text options :
  evolves user (reply ctx text options).
Proof. intros w. apply evolved_refl. Qed.

Lemma evolves_fetch user r : evolves user (fetch r).
Proof.
  unfold fetch. apply evolves_bind; [apply evolves_emit|]. intros _.
  destruct (fetch_json r); [apply evolves_ret|apply evolves_throw].
Qed.

(** A write to another session, or of [messageId] alone, or of
    [withdrawalRequested := true] alone. *)
Lemma evolves_updateUserState user id patch :
  address patch = None -> privateKey patch = None -> publicKey patch = None ->
  withdrawalAmount patch = None ->
  withdrawalRequested patch = None \/ withdrawalRequested patch = Some true ->
  evolves user (updateUserState id patch).
Proof.
  intros Ha Hk Hp Hx Hq w. unfold updateUserState, stateOf. simpl.
  rewrite lookup_insert. case_decide as Heq; [subst id|apply evolved_refl].
  unfold spread. simpl. rewrite Ha, Hk, Hp, Hx. simpl.
  split; [by left|]. split; [|by left].
  destruct Hq as [-> | ->]; auto.
Qed.

Lemma evolves_sendReply user ctx text options :
  evolves user (sendReply ctx text options).
Proof.
  unfold sendReply. apply evolves_bind; [apply evolves_reply|]. intros id.
  apply evolves_updateUserState; auto.
Qed.

Lemma evolves_getOrCreateAddress user id : evolves user (getOrCreateAddress id).
Proof.
  intros w. unfold getOrCreateAddress. run.
  destruct (address (stateOf w id)) as [[|c r]|] eqn:Haddr;
    try apply evolved_refl;
    unfold drawMnemonic, stateOf; simpl;
    (rewrite lookup_insert; case_decide as Heq; [subst id|apply evolved_refl]);
    simpl; fold (stateOf w user);
    (split; [right; split; [unfold hasAddress; by rewrite Haddr|eauto]|]);
    split; by left.
Qed.

End Evolution.

(* ===================================================================== *)
(** ** The handlers *)
(* ===================================================================== *)

Ltac confine_step :=
  lazymatch goal with
  | |- Laws.confined _ (_ ≫= _) => apply confined_bind; [|intros ?]
  | |- Laws.confined _ (try_catch _ _) => apply confined_try_catch; [|intros ?]
  | |- Laws.confined _ (mret _) => apply confined_ret
  | |- Laws.confined _ (throw _) => apply confined_throw
  | |- Laws.confined _ (lift _) => apply confined_lift
  | |- Laws.confined _ (emit _) => apply confined_emit
  | |- Laws.confined _ (readState _) => apply confined_readState
  | |- Laws.confined _ now => apply confined_now
  | |- Laws.confined _ drawMnemonic => apply confined_drawMnemonic
  | |- Laws.confined _ (reply _ _ _) => apply confined_reply
  | |- Laws.confined _ (updateUserState _ _) => apply confined_updateUserState
  | |- Laws.confined _ (fetch _) => apply confined_fetch
  | |- Laws.confined _ (match ?x with _ => _ end) => destruct x
  end.

Ltac confine := repeat confine_step.

Section Handlers.
Import Laws.
Context {wallet : Wallet} {platform : Platform}.

Lemma confined_sendReply ctx text options :
  confined (from_id ctx) (sendReply ctx text options).
Proof. unfold sendReply. confine. Qed.

Lemma confined_post user path body : confined user (post path body).
Proof. unfold post, getHeaders. confine. Qed.

Lemma confined_getOrCreateAddress user : confined user (getOrCreateAddress user).
Proof. unfold getOrCreateAddress. confine. Qed.

Lemma confined_sign user key data : confined user (sign key data).
Proof. unfold sign. confine. Qed.

Lemma confined_handleWithdrawal ctx :
  confined (from_id ctx) (handleWithdrawal ctx).
Proof.
  unfold handleWithdrawal, withdraw.
  confine;
    first [apply confined_sendReply | apply confined_post | apply confined_sign].
Qed.

Lemma confined_handlePinMessage ctx :
  confined (from_id ctx) (handlePinMessage ctx).
Proof.
  unfold handlePinMessage. apply confined_try_catch; [|intros e; confine].
  intros w other Hne. destruct (userStates w !! from_id ctx); [|done].
  run. by destruct (pinChatMessage _ _).
Qed.

Lemma confined_handle (u : update) : confined (sender u) (handle u).
Proof.
  destruct u as [ctx|b ctx|ctx]; simpl.
  - unfold start. confine;
      first [apply confined_getOrCreateAddress | apply confined_sendReply].
  - unfold onCallbackQuery. apply confined_bind; [confine|intros _].
    destruct b; simpl.
    + unfold handleCheckBalance. confine;
        first [apply confined_getOrCreateAddress | apply confined_post
              | apply confined_sendReply].
    + unfold handleDeposit. confine;
        first [apply confined_getOrCreateAddress | apply confined_sendReply].
    + unfold handleInitialWithdrawal. confine. apply confined_sendReply.
    + apply confined_handlePinMessage.
    + unfold handleExportKey. confine; apply confined_sendReply.
  - unfold onMessageText, handleUserState. confine.
    apply confined_handleWithdrawal.
Qed.

(** *** No update throws *)

Lemma returns_bind {A B} (m : M A) (f : A -> M B) :
  returns m -> (forall a, returns (f a)) -> returns (m ≫= f).
Proof.
  intros Hm Hf w. unfold mbind, M_bind.
  destruct (Hm w) as [a Ha]. destruct (m w) as [[a'|e] w1]; [|done].
  apply Hf.
Qed.

Lemma returns_try_catch {A} (body : M A) (handler : exn -> M A) :
  (forall e, returns (handler e)) -> returns (try_catch body handler).
Proof.
  intros Hf w. unfold try_catch.
  destruct (body w) as [[a|e] w1]; [by exists a|apply Hf].
Qed.

Lemma returns_ret {A} (a : A) : returns (mret a).
Proof. intros w. by exists a. Qed.

Lemma returns_reply ctx text options : returns (reply ctx text options).
Proof. intros w. by eexists. Qed.

Lemma returns_updateUserState user st : returns (updateUserState user st).
Proof. intros w. by eexists. Qed.

Lemma returns_sendReply ctx text options : returns (sendReply ctx text options).
Proof.
  unfold sendReply. apply returns_bind; [apply returns_reply|].
  intros id. apply returns_updateUserState.
Qed.

Lemma returns_getOrCreateAddress user : returns (getOrCreateAddress user).
Proof.
  intros w. unfold getOrCreateAddress. run.
  destruct (address (stateOf w user)) as [[|c r]|]; by eexists.
Qed.

Lemma returns_handleWithdrawal ctx : returns (handleWithdrawal ctx).
Proof. intros w. exists tt. apply handleWithdrawal_returns. Qed.

Ltac settle :=
  repeat lazymatch goal with
    | |- Laws.returns (_ ≫= _) => apply returns_bind; [|intros ?]
    | |- Laws.returns (try_catch _ _) => apply returns_try_catch; intros ?
    | |- Laws.returns (mret _) => apply returns_ret
    | |- Laws.returns (reply _ _ _) => apply returns_reply
    | |- Laws.returns (sendReply _ _ _) => apply returns_sendReply
    | |- Laws.returns (updateUserState _ _) => apply returns_updateUserState
    | |- Laws.returns (getOrCreateAddress _) => apply returns_getOrCreateAddress
    | |- Laws.returns (handleWithdrawal _) => apply returns_handleWithdrawal
    | |- Laws.returns (emit _) => intros ?; by eexists
    | |- Laws.returns (readState _) => intros ?; by eexists
    | |- Laws.returns (match ?x with _ => _ end) => destruct x
    end.

Lemma returns_handle (u : update) : returns (handle u).
Proof.
  destruct u as [ctx|b ctx|ctx]; simpl.
  - unfold start. settle.
  - unfold onCallbackQuery. apply returns_bind; [settle|intros _].
    destruct b; simpl.
    + unfold handleCheckBalance. settle.
    + unfold handleDeposit. settle.
    + unfold handleInitialWithdrawal. settle.
    + unfold handlePinMessage. settle.
    + unfold handleExportKey. settle.
  - unfold onMessageText, handleUserState. settle.
Qed.

(** *** How an update changes a session *)

Lemma evolves_confined user id {A} (m : M A) :
  confined id m -> user <> id -> evolves user m.
Proof.
  intros Hm Hne w. unfold stateOf. rewrite (Hm w user Hne).
  apply evolved_refl.
Qed.

Lemma positive_of_check x :
  isNaN x || le_zero x = false -> gt_zero x = true.
Proof.
  intros H. destruct (gt_zero x) eqn:Hg; [done|].
  apply not_positive in Hg. congruence.
Qed.

Lemma evolved_handleWithdrawal user ctx w :
  withdrawalRequested (stateOf w (from_id ctx)) = Some true ->
  evolved (stateOf w user) (stateOf (snd (handleWithdrawal ctx w)) user).
Proof.
  intros Hreq.
  destruct (decide (user = from_id ctx)) as [->|Hne];
    [|by apply (evolves_confined _ _ _ (confined_handleWithdrawal ctx))].
  destruct (noAmount (stateOf w (from_id ctx))) eqn:Hno.
  - unfold handleWithdrawal. run. rewrite Hno.
    destruct (isNaN _ || le_zero _) eqn:Hbad; simpl; [apply evolved_refl|].
    apply positive_of_check in Hbad.
    unfold stateOf at 2. simpl. rewrite lookup_insert_eq. simpl.
    unfold stateOf at 2. simpl. rewrite lookup_insert_eq. simpl.
    unfold stateOf at 2. simpl. fold (stateOf w (from_id ctx)).
    unfold spread. simpl.
    split; [by left|]. split; [by left|]. right. split; [done|].
    eexists. by repeat split.
  - destruct (handleWithdrawal_destination ctx w Hno)
      as (evs & w' & Hrun & _ & _ & _ & Ha & Hk & Hp & Hq & Hx & _).
    rewrite Hrun. simpl. by apply evolved_same.
Qed.

Lemma evolves_post user path body : evolves user (post path body).
Proof.
  unfold post, getHeaders.
  apply evolves_bind; [|intros ?; apply evolves_fetch].
  apply evolves_bind; [apply evolves_now|intros ?; apply evolves_ret].
Qed.

Ltac evolve :=
  repeat lazymatch goal with
    | |- Laws.evolves _ (_ ≫= _) => apply evolves_bind; [|intros ?]
    | |- Laws.evolves _ (try_catch _ _) => apply evolves_try_catch; [|intros ?]
    | |- Laws.evolves _ (mret _) => apply evolves_ret
    | |- Laws.evolves _ (throw _) => apply evolves_throw
    | |- Laws.evolves _ (lift _) => apply evolves_lift
    | |- Laws.evolves _ (emit _) => apply evolves_emit
    | |- Laws.evolves _ (readState _) => apply evolves_readState
    | |- Laws.evolves _ (reply _ _ _) => apply evolves_reply
    | |- Laws.evolves _ (sendReply _ _ _) => apply evolves_sendReply
    | |- Laws.evolves _ (post _ _) => apply evolves_post
    | |- Laws.evolves _ (getOrCreateAddress _) => apply evolves_getOrCreateAddress
    | |- Laws.evolves _ (updateUserState _ _) =>
        apply evolves_updateUserState; auto
    | |- Laws.evolves _ (match ?x with _ => _ end) => destruct x
    end.

Lemma evolves_handlePinMessage user ctx : evolves user (handlePinMessage ctx).
Proof.
  unfold handlePinMessage. apply evolves_try_catch; [|intros e; evolve].
  intros w. destruct (userStates w !! from_id ctx) eqn:Hst;
    [|apply evolved_refl].
  run. destruct (pinChatMessage _ _); apply evolved_refl.
Qed.

Lemma evolves_onMessageText user ctx : evolves user (onMessageText ctx).
Proof.
  intros w. unfold onMessageText, handleUserState.
  unfold mbind, M_bind, readState, mret, M_ret, reply. cbn [fst snd].
  destruct (repliesToLast _ _); [|apply evolved_refl].
  destruct (withdrawalRequested (stateOf w (from_id ctx))) as [[]|] eqn:Hreq;
    cbn [default fst snd]; try apply evolved_refl.
  by apply evolved_handleWithdrawal.
Qed.

Lemma evolves_handle user (u : update) : evolves user (handle u).
Proof.
  destruct u as [ctx|b ctx|ctx]; simpl.
  - unfold start. evolve.
  - unfold onCallbackQuery. apply evolves_bind; [evolve|intros _].
    destruct b; simpl.
    + unfold handleCheckBalance. evolve.
    + unfold handleDeposit. evolve.
    + unfold handleInitialWithdrawal. evolve.
    + apply evolves_handlePinMessage.
    + unfold handleExportKey. evolve.
  - apply evolves_onMessageText.
Qed.

End Handlers.

(* ===================================================================== *)
(** ** What holds of every update *)
(* ===================================================================== *)

Section Updates.
Import Laws.
Context {wallet : Wallet} {platform : Platform}.

Lemma runAll_cons (u : update) (us : list update) (w : world) :
  runAll (u :: us) w = runAll us (snd (handle u w)).
Proof. reflexivity. Qed.

(** X1. No update throws: the start command, each menu button and every
    text message return normally from any world, whatever the address
    check, the signer, the remote service and the pin answer. (Sending a
    chat message and deriving a key are taken not to fail.) *)
Theorem updates_never_throw (u : update) (w : world) :
  fst (handle u w) = Ok tt.
Proof. destruct (returns_handle u w) as [[] H]. exact H. Qed.

(** X2. Updates write to the session of their sender alone: a user none
    of the updates comes from has the same entry in [userStates] before
    and after, present or absent. *)
Theorem updates_touch_only_their_sender
    (us : list update) (w : world) (user : Z) :
  Forall (fun u => sender u <> user) us ->
  userStates (runAll us w) !! user = userStates w !! user.
Proof.
  intros Hall. revert w.
  induction Hall as [|u us Hu _ IH]; intros w; [done|].
  rewrite runAll_cons, IH. apply confined_handle. congruence.
Qed.

(** X3. Once a session holds a non-empty address, no sequence of updates
    replaces the address, the private key or the public key. *)
Theorem address_and_keys_are_never_replaced
    (us : list update) (w : world) (user : Z) (a : string)
    (k p : option string) :
  a <> EmptyString ->
  keysAre user a k p w ->
  keysAre user a k p (runAll us w).
Proof.
  intros Ha. revert w. induction us as [|u us IH]; intros w Hkeys; [done|].
  rewrite runAll_cons. apply IH.
  destruct Hkeys as (Haddr & Hk & Hp).
  destruct (evolves_handle user u w) as ([(a1 & k1 & p1)|(Hno & _)] & _).
  - repeat split; congruence.
  - unfold hasAddress in Hno. rewrite Haddr in Hno. by destruct a.
Qed.

(** X4. Once a session holds an amount (a number other than 0 and NaN),
    no sequence of updates changes it: neither a later text, nor the end
    of the withdrawal, nor a new withdraw request, nor /start. *)
Theorem stored_amount_is_never_changed
    (us : list update) (w : world) (user : Z) (x : number) :
  JSNumber.truthy x = true ->
  amountIs user x w ->
  amountIs user x (runAll us w).
Proof.
  intros Hx. revert w. induction us as [|u us IH]; intros w Hamt; [done|].
  rewrite runAll_cons. apply IH. unfold amountIs in *.
  destruct (evolves_handle user u w) as (_ & _ & [Hsame|(Hno & _)]).
  - congruence.
  - unfold noAmount in Hno. rewrite Hamt, Hx in Hno. done.
Qed.

Lemma amountsArePositive_step (u : update) (w : world) :
  amountsArePositive w -> amountsArePositive (snd (handle u w)).
Proof.
  intros Hinv user x Hx.
  destruct (evolves_handle user u w) as (_ & Hq & Ha).
  destruct Ha as [Hsame|(_ & y & Hy & Hpos & Hreq)].
  - rewrite Hsame in Hx. destruct (Hinv user x Hx) as [Hpos Hreq].
    split; [done|]. destruct Hq as [-> | ->]; done.
  - rewrite Hx in Hy. injection Hy as ->. done.
Qed.

(** X5. In every world reached from the empty one, a stored amount is a
    number above zero (never NaN, zero or negative; it may be Infinity),
    and it is stored in a session whose [withdrawalRequested] is true. *)
Theorem stored_amounts_are_positive (us : list update) :
  amountsArePositive (runAll us initial).
Proof.
  assert (H : forall w, amountsArePositive w -> amountsArePositive (runAll us w)).
  { induction us as [|u us IH]; intros w Hw; [done|].
    rewrite runAll_cons. by apply IH, amountsArePositive_step. }
  apply H. intros user x Hx. unfold stateOf, initial in Hx. simpl in Hx.
  by rewrite lookup_empty in Hx.
Qed.

Lemma keysBelongTogether_step (u : update) (w : world) :
  keysBelongTogether w -> keysBelongTogether (snd (handle u w)).
Proof.
  intros Hinv user. specialize (Hinv user).
  destruct (evolves_handle user u w) as ([(a1 & k1 & p1)|(_ & k & Hk & Ha & Hp)] & _).
  - by rewrite a1, k1, p1.
  - by rewrite Hk.
Qed.

(** X6. In every world reached from the empty one, address, private key
    and public key are stored together or not at all, and the address
    and public key are those the wallet derives from the stored private
    key. *)
Theorem keys_belong_together (us : list update) :
  keysBelongTogether (runAll us initial).
Proof.
  assert (H : forall w, keysBelongTogether w -> keysBelongTogether (runAll us w)).
  { induction us as [|u us IH]; intros w Hw; [done|].
    rewrite runAll_cons. by apply IH, keysBelongTogether_step. }
  apply H. intros user. unfold stateOf, initial. simpl.
  by rewrite lookup_empty.
Qed.

End Updates.

Section Events.
Import Laws.
Context {wallet : Wallet} {platform : Platform}.

Lemma emits_ret Q {A} (a : A) : emits Q (mret a).
Proof. intros w. exists []. by rewrite app_nil_r. Qed.

Lemma emits_throw Q {A} e : emits Q (throw (A := A) e).
Proof. intros w. exists []. by rewrite app_nil_r. Qed.

Lemma emits_bind Q {A B} (m : M A) (f : A -> M B) :
  emits Q m -> (forall a, emits Q (f a)) -> emits Q (m ≫= f).
Proof.
  intros Hm Hf w. unfold mbind, M_bind.
  destruct (Hm w) as (evs & Htr & Hall).
  destruct (m w) as [[a|e] w1]; simpl in *; [|by exists evs].
  destruct (Hf a w1) as (evs' & Htr' & Hall').
  exists (evs ++ evs'). rewrite Htr', Htr, app_assoc.
  split; [done|]. by apply Forall_app.
Qed.

Lemma emits_try_catch Q {A} (body : M A) (handler : exn -> M A) :
  emits Q body -> (forall e, emits Q (handler e)) ->
  emits Q (try_catch body handler).
Proof.
  intros Hm Hf w. unfold try_catch.
  destruct (Hm w) as (evs & Htr & Hall).
  destruct (body w) as [[a|e] w1]; simpl in *; [by exists evs|].
  destruct (Hf e w1) as (evs' & Htr' & Hall').
  exists (evs ++ evs'). rewrite Htr', Htr, app_assoc.
  split; [done|]. by apply Forall_app.
Qed.

Lemma emits_quiet Q {A} (m : M A) :
  (forall w, trace (snd (m w)) = trace w) -> emits Q m.
Proof. intros H w. exists []. by rewrite H, app_nil_r. Qed.

Lemma emits_emit (Q : event -> Prop) ev : Q ev -> emits Q (emit ev).
Proof. intros H w. exists [ev]. split; [done|]. by constructor. Qed.

Lemma emits_reply (Q : event -> Prop) ctx text options :
  Q (Reply (chat_id ctx) text options) -> emits Q (reply ctx text options).
Proof. intros H w. eexists [_]. split; [done|]. by constructor. Qed.

Lemma emits_lift Q {A} (r : exn + A) : emits Q (lift r).
Proof. destruct r; [apply emits_throw|apply emits_ret]. Qed.

Lemma emits_updateUserState Q user st : emits Q (updateUserState user st).
Proof. by apply emits_quiet. Qed.

Lemma emits_readState Q user : emits Q (readState user).
Proof. by apply emits_quiet. Qed.

Lemma emits_sendReply (Q : event -> Prop) ctx text options :
  Q (Reply (chat_id ctx) text options) -> emits Q (sendReply ctx text options).
Proof.
  intros H. unfold sendReply. apply emits_bind; [by apply emits_reply|].
  intros id. apply emits_updateUserState.
Qed.

Lemma emits_getOrCreateAddress Q user : emits Q (getOrCreateAddress user).
Proof.
  apply emits_quiet. intros w. unfold getOrCreateAddress. run.
  by destruct (address (stateOf w user)) as [[|c r]|].
Qed.

Lemma requestAt_signedAsSent t path body :
  signedAsSent (requestAt t path body).
Proof. split; [done|]. by exists t, path. Qed.

Lemma emits_post ctx path body : emits (orderly ctx) (post path body).
Proof.
  intros w. unfold post, getHeaders, fetch. run.
  destruct (fetch_json _); simpl; eexists [_]; (split; [done|]);
    constructor; [|done| |done]; apply (requestAt_signedAsSent (clock w)).
Qed.

Lemma emits_sign ctx key data :
  tx_chainId data = xLayerChainId -> emits (orderly ctx) (sign key data).
Proof.
  intros Hchain w. unfold sign. run.
  destruct (signTransaction _ _ _); simpl; eexists [_]; (split; [done|]);
    constructor; try done; split; done.
Qed.

Lemma emits_lift_bind Q {A B} (r : exn + A) (f : A -> M B) :
  (forall a, r = inr a -> emits Q (f a)) -> emits Q (lift r ≫= f).
Proof.
  intros Hf. destruct r as [e|a]; intros w; unfold mbind, M_bind; simpl.
  - exists []. by rewrite app_nil_r.
  - by apply Hf.
Qed.

Lemma readSignInfo_params v d amount data :
  readSignInfo v d amount = inr data ->
  tx_to data = d /\ tx_value data = amount /\ tx_chainId data = xLayerChainId.
Proof.
  unfold readSignInfo, mbind, exn_bind.
  repeat match goal with
    | |- context [match ?x with _ => _ end] => destruct x; try done
    end.
  by intros [= <-].
Qed.

Ltac order :=
  repeat lazymatch goal with
    | |- Laws.emits _ (lift _ ≫= _) => apply emits_lift_bind; intros ? ?
    | |- Laws.emits _ (_ ≫= _) => apply emits_bind; [|intros ?]
    | |- Laws.emits _ (try_catch _ _) => apply emits_try_catch; [|intros ?]
    | |- Laws.emits _ (mret _) => apply emits_ret
    | |- Laws.emits _ (throw _) => apply emits_throw
    | |- Laws.emits _ (lift _) => apply emits_lift
    | |- Laws.emits _ (emit _) => apply emits_emit; try done
    | |- Laws.emits _ (readState _) => apply emits_readState
    | |- Laws.emits _ (reply _ _ _) => apply emits_reply; try done
    | |- Laws.emits _ (sendReply _ _ _) => apply emits_sendReply; try done
    | |- Laws.emits _ (post _ _) => apply emits_post
    | |- Laws.emits _ (getOrCreateAddress _) => apply emits_getOrCreateAddress
    | |- Laws.emits _ (updateUserState _ _) => apply emits_updateUserState
    | |- Laws.emits _ (match ?x with _ => _ end) => destruct x
    end.

Lemma emits_handleWithdrawal ctx : emits (orderly ctx) (handleWithdrawal ctx).
Proof.
  unfold handleWithdrawal, withdraw. order.
  apply emits_sign. by eapply readSignInfo_params.
Qed.

Lemma emits_handlePinMessage ctx : emits (orderly ctx) (handlePinMessage ctx).
Proof.
  unfold handlePinMessage. apply emits_try_catch; [|intros e; order].
  intros w. destruct (userStates w !! from_id ctx); [|apply emits_throw].
  run. destruct (pinChatMessage _ _); simpl.
  - eexists [_; _]. rewrite <- app_assoc. split; [done|]. by repeat constructor.
  - eexists [_]. split; [done|]. by repeat constructor.
Qed.

Lemma emits_handle (u : update) : emits (orderly (contextOf u)) (handle u).
Proof.
  destruct u as [ctx|b ctx|ctx]; simpl.
  - unfold start. order.
  - unfold onCallbackQuery. apply emits_bind; [order|intros _].
    destruct b; simpl.
    + unfold handleCheckBalance. order.
    + unfold handleDeposit. order.
    + unfold handleInitialWithdrawal. order.
    + apply emits_handlePinMessage.
    + unfold handleExportKey. order.
  - unfold onMessageText, handleUserState. order.
    apply emits_handleWithdrawal.
Qed.

(** X7. The events of every update are in order: each message and each
    pin goes to the chat of the update; each request is a POST to a path
    of the API host whose headers carry the credentials of the
    environment, a timestamp, and the HMAC under the API secret of
    timestamp, POST, path and the body actually sent; each signing call
    is for chain 196. The trace itself only grows. *)
Theorem events_are_in_order (u : update) (w : world) :
  trace (snd (handle u w)) = trace w ++ eventsOf (handle u) w
  /\ Forall (orderly (contextOf u)) (eventsOf (handle u) w).
Proof.
  destruct (emits_handle u w) as (evs & Htr & Hall).
  assert (Hevs : eventsOf (handle u) w = evs).
  { unfold eventsOf, exec. by rewrite Htr, drop_app_length. }
  by rewrite Hevs.
Qed.

End Events.

(* ===================================================================== *)
(** ** The handlers one by one *)
(* ===================================================================== *)

Section Conversation.
Import Laws.
Context {wallet : Wallet} {platform : Platform}.

(** X8. After [sendReply], the gate opens for the sender's replies to the
    message just sent and for nothing else: such a reply runs the
    handler; a text that replies to another message, or to none, gets
    the menu reminder. *)
Theorem gate_opens_for_the_last_prompt
    (ctx answer : context) (text : string) (options : replyOptions)
    (handler : context -> M unit) (w : world) :
  from_id answer = from_id ctx ->
  let w1 := snd (sendReply ctx text options w) in
  messageId (stateOf w1 (from_id ctx)) = Some (message_id (sent w))
  /\ (reply_to_message answer = Some (message_id (sent w)) ->
      handleUserState answer handler w1 = handler answer w1)
  /\ (reply_to_message answer <> Some (message_id (sent w)) ->
      handleUserState answer handler w1 = reminder answer w1).
Proof.
  intros Hfrom w1.
  assert (Hid : messageId (stateOf w1 (from_id ctx))
                = Some (message_id (sent w))).
  { subst w1. unfold sendReply. run. unfold stateOf at 1. simpl.
    by rewrite lookup_insert_eq. }
  split; [exact Hid|].
  unfold handleUserState, mbind, M_bind, readState, repliesToLast.
  rewrite Hfrom, Hid. split; intros Hreply.
  - by rewrite Hreply, Z.eqb_refl.
  - destruct (reply_to_message answer) as [r|]; [|done].
    destruct (Z.eqb_spec r (message_id (sent w))) as [->|Hne]; done.
Qed.

Lemma truthy_of_positive x : gt_zero x = true -> JSNumber.truthy x = true.
Proof. by destruct x as [[]|[]| |[] m e]. Qed.

(** X9. From the withdraw button to a captured amount: after
    [handleInitialWithdrawal], in a session holding no amount, the
    sender's reply to the amount prompt with a text that parses above
    zero stores exactly the parsed number, asks for the address, and
    moves the prompt to the new message. *)
Theorem amount_reply_is_captured (press ctx : context) (w : world) :
  from_id ctx = from_id press ->
  noAmount (stateOf w (from_id press)) = true ->
  reply_to_message ctx = Some (message_id (sent w)) ->
  gt_zero (parseFloat (message_text ctx)) = true ->
  let w1 := snd (handleInitialWithdrawal press w) in
  let w2 := snd (onMessageText ctx w1) in
  eventsOf (onMessageText ctx) w1
    = [Reply (chat_id ctx) addressPrompt forceReply]
  /\ withdrawalAmount (stateOf w2 (from_id ctx))
     = Some (parseFloat (message_text ctx))
  /\ noAmount (stateOf w2 (from_id ctx)) = false
  /\ withdrawalRequested (stateOf w2 (from_id ctx)) = Some true
  /\ messageId (stateOf w2 (from_id ctx)) = Some (message_id (S (sent w))).
Proof.
  intros Hfrom Hno Hreply Hpos w1 w2.
  assert (Hst1 : stateOf w1 (from_id ctx)
                 = spread (spread (stateOf w (from_id press))
                             {| messageId := None; address := None;
                                privateKey := None; publicKey := None;
                                withdrawalRequested := Some true;
                                withdrawalAmount := None |})
                     {| messageId := Some (message_id (sent w));
                        address := None; privateKey := None;
                        publicKey := None; withdrawalRequested := None;
                        withdrawalAmount := None |}).
  { subst w1. rewrite Hfrom. unfold handleInitialWithdrawal. run.
    unfold stateOf at 1. simpl. rewrite lookup_insert_eq. simpl.
    unfold stateOf at 1. simpl. by rewrite lookup_insert_eq. }
  assert (Hbad : isNaN (parseFloat (message_text ctx))
                 || le_zero (parseFloat (message_text ctx)) = false).
  { destruct (isNaN _ || le_zero _) eqn:H; [|done].
    apply not_positive in H. congruence. }
  assert (Hreq1 : default false
                    (withdrawalRequested (stateOf w1 (from_id ctx))) = true)
    by (by rewrite Hst1).
  assert (Hno1 : noAmount (stateOf w1 (from_id ctx)) = true).
  { rewrite Hst1. unfold noAmount in *. simpl.
    by destruct (withdrawalAmount (stateOf w (from_id press))). }
  assert (Hsent : sent w1 = S (sent w)) by done.
  clearbody w1.
  assert (Hrun : exists w',
             onMessageText ctx w1 = (Ok tt, w')
             /\ trace w' = trace w1 ++ [Reply (chat_id ctx) addressPrompt forceReply]
             /\ withdrawalAmount (stateOf w' (from_id ctx))
                = Some (parseFloat (message_text ctx))
             /\ withdrawalRequested (stateOf w' (from_id ctx)) = Some true
             /\ messageId (stateOf w' (from_id ctx))
                = Some (message_id (S (sent w)))).
  { unfold onMessageText, handleUserState, handleWithdrawal.
    assert (Hgate : repliesToLast ctx (stateOf w1 (from_id ctx)) = true).
    { unfold repliesToLast. rewrite Hst1, Hreply. simpl. apply Z.eqb_refl. }
    run. rewrite Hgate, Hreq1, Hno1, Hbad. simpl.
    eexists. split; [reflexivity|]. simpl. split; [reflexivity|].
    unfold stateOf; simpl; rewrite ?lookup_insert_eq; simpl;
      rewrite ?lookup_insert_eq; simpl.
    fold (stateOf w1 (from_id ctx)). rewrite Hst1, Hsent. simpl. done. }
  destruct Hrun as (w' & Hrun & Htr & Hamt & Hreq & Hmid).
  split; [by apply (eventsOf_app _ _ _ _ _ Hrun Htr)|].
  subst w2. rewrite Hrun. simpl. rewrite Hamt, Hreq, Hmid.
  repeat split. unfold noAmount. by rewrite Hamt, truthy_of_positive.
Qed.

(** X10. Export key answers in the chat and nowhere else. With a
    non-empty private key in the sender's session it sends the warning
    and then the key between backticks; with none (no session, or a
    session without a key) it sends the no-wallet message alone and
    leaves the session table untouched. It fetches nothing and signs
    nothing. *)
Theorem export_key_answers_in_the_chat (ctx : context) (w : world) :
  let evs := eventsOf (handleExportKey ctx) w in
  fst (handleExportKey ctx w) = Ok tt
  /\ requestsOf evs = []
  /\ signingsOf evs = []
  /\ match privateKey (stateOf w (from_id ctx)) with
     | Some (String c r) =>
         evs = [ Reply (chat_id ctx) keyWarning plain;
                 Reply (chat_id ctx) (backtick ++ String c r ++ backtick)%string
                   markdown ]
     | _ =>
         evs = [Reply (chat_id ctx) noWallet plain]
         /\ userStates (snd (handleExportKey ctx w)) = userStates w
     end.
Proof.
  intros evs. subst evs.
  assert (H : exists res w' evs,
             handleExportKey ctx w = (res, w') /\ trace w' = trace w ++ evs
             /\ res = Ok tt /\ requestsOf evs = [] /\ signingsOf evs = []
             /\ match privateKey (stateOf w (from_id ctx)) with
                | Some (String c r) =>
                    evs = [ Reply (chat_id ctx) keyWarning plain;
                            Reply (chat_id ctx)
                              (backtick ++ String c r ++ backtick)%string
                              markdown ]
                | _ => evs = [Reply (chat_id ctx) noWallet plain]
                       /\ userStates w' = userStates w
                end).
  { unfold handleExportKey. run.
    destruct (privateKey (stateOf w (from_id ctx))) as [[|c r]|]; simpl;
      eexists _, _, _; (split; [reflexivity|]); simpl;
      rewrite <- ?app_assoc; (split; [reflexivity|]); by repeat split. }
  destruct H as (res & w' & evs & Hrun & Htr & -> & Hreq & Hsig & Hshape).
  rewrite (eventsOf_app _ _ _ _ _ Hrun Htr), Hrun. simpl.
  by repeat split.
Qed.

(** X11. /start creates the wallet once and shows its address. It sends
    one message, the welcome text with the address and the menu, and
    records that message as the prompt. Where the session already held a
    non-empty address, address and keys are kept and no mnemonic is
    drawn; otherwise one mnemonic is drawn and the private key derived
    from it at path index 0 is stored with the address and public key
    the wallet gives for it. A pending withdrawal is left as it was. *)
Theorem start_creates_the_wallet_once (ctx : context) (w : world) :
  let user := from_id ctx in
  let st := stateOf w user in
  let w1 := snd (start ctx w) in
  let st1 := stateOf w1 user in
  let key :=
    getDerivedPrivateKey (generateMnemonic (entropy w)) (getDerivedPath 0) in
  exists a,
    eventsOf (start ctx) w
      = [Reply (chat_id ctx) (welcomeMessage a)
           {| force_reply := false; parse_mode := Some "Markdown"%string;
              inline_keyboard := keyboard |}]
    /\ address st1 = Some a
    /\ messageId st1 = Some (message_id (sent w))
    /\ withdrawalRequested st1 = withdrawalRequested st
    /\ withdrawalAmount st1 = withdrawalAmount st
    /\ (if hasAddress st
        then address st1 = address st /\ privateKey st1 = privateKey st
             /\ publicKey st1 = publicKey st /\ entropy w1 = entropy w
        else a = fst (getNewAddress key) /\ privateKey st1 = Some key
             /\ publicKey st1 = Some (snd (getNewAddress key))
             /\ entropy w1 = S (entropy w)).
Proof.
  intros user st w1 st1 key.
  assert (Hst0 : stateOf (snd (updateUserState user noState w)) user = st).
  { unfold updateUserState, stateOf. simpl. rewrite lookup_insert_eq.
    fold (stateOf w user). fold st. by destruct st. }
  assert (H : exists a w',
             start ctx w = (Ok tt, w')
             /\ trace w' = trace w
                  ++ [Reply (chat_id ctx) (welcomeMessage a)
                        {| force_reply := false;
                           parse_mode := Some "Markdown"%string;
                           inline_keyboard := keyboard |}]
             /\ address (stateOf w' user) = Some a
             /\ messageId (stateOf w' user) = Some (message_id (sent w))
             /\ withdrawalRequested (stateOf w' user) = withdrawalRequested st
             /\ withdrawalAmount (stateOf w' user) = withdrawalAmount st
             /\ (if hasAddress st
                 then address (stateOf w' user) = address st
                      /\ privateKey (stateOf w' user) = privateKey st
                      /\ publicKey (stateOf w' user) = publicKey st
                      /\ entropy w' = entropy w
                 else a = fst (getNewAddress key)
                      /\ privateKey (stateOf w' user) = Some key
                      /\ publicKey (stateOf w' user)
                         = Some (snd (getNewAddress key))
                      /\ entropy w' = S (entropy w))).
  { set (w0 := snd (updateUserState user noState w)) in *.
    assert (Hstart : start ctx w
              = (userAddress ← getOrCreateAddress user;
                 sendReply ctx (welcomeMessage userAddress)
                   {| force_reply := false;
                      parse_mode := Some "Markdown"%string;
                      inline_keyboard := keyboard |}) w0) by reflexivity.
    assert (Hs0 : sent w0 = sent w /\ entropy w0 = entropy w
                  /\ trace w0 = trace w) by done.
    destruct Hs0 as (Hsent & Hentropy & Htrace).
    clearbody w0. rewrite Hstart. clear Hstart.
    unfold getOrCreateAddress. run. rewrite Hst0. unfold hasAddress.
    destruct (address st) as [[|c r]|] eqn:Haddr; simpl;
      unfold drawMnemonic; simpl;
      eexists _, _; (split; [reflexivity|]); simpl;
      rewrite Hsent, Htrace, ?Hentropy;
      (split; [reflexivity|]);
      unfold stateOf; simpl; rewrite ?lookup_insert_eq; simpl;
      rewrite ?lookup_insert_eq; simpl;
      fold (stateOf w0 (from_id ctx)); fold user; fold (stateOf w0 user);
      rewrite ?Hst0, ?Haddr; by repeat split. }
  destruct H as (a & w' & Hrun & Htr & H).
  exists a. rewrite (eventsOf_app _ _ _ _ _ Hrun Htr).
  subst st1 w1. rewrite Hrun. simpl. by split.
Qed.

(** X12. Deposit shows the address of the sender's wallet, created if
    need be: three messages, the note, the instruction and the address
    between backticks, which is the address the session then holds; the
    prompt recorded is the third message. *)
Theorem deposit_shows_the_address (ctx : context) (w : world) :
  let user := from_id ctx in
  let w1 := snd (handleDeposit ctx w) in
  exists a,
    eventsOf (handleDeposit ctx) w
      = [ Reply (chat_id ctx)
            "_Note: Make sure to deposit only to this address on the XLayer network!_"
            markdown;
          Reply (chat_id ctx) "Please send your OKB to the following address:"
            plain;
          Reply (chat_id ctx) (backtick ++ a ++ backtick)%string markdown ]
    /\ address (stateOf w1 user) = Some a
    /\ messageId (stateOf w1 user) = Some (message_id (S (S (sent w)))).
Proof.
  intros user w1.
  assert (H : exists a w' evs,
             handleDeposit ctx w = (Ok tt, w') /\ trace w' = trace w ++ evs
             /\ evs = [ Reply (chat_id ctx)
                          "_Note: Make sure to deposit only to this address on the XLayer network!_"
                          markdown;
                        Reply (chat_id ctx)
                          "Please send your OKB to the following address:" plain;
                        Reply (chat_id ctx) (backtick ++ a ++ backtick)%string
                          markdown ]
             /\ address (stateOf w' user) = Some a
             /\ messageId (stateOf w' user) = Some (message_id (S (S (sent w))))).
  { unfold handleDeposit, getOrCreateAddress. fold user. run.
    destruct (address (stateOf w user)) as [[|c r]|] eqn:Haddr; simpl;
      unfold drawMnemonic; simpl;
      eexists _, _, _; (split; [reflexivity|]); simpl;
      rewrite <- ?app_assoc; (split; [reflexivity|]);
      (split; [reflexivity|]);
      unfold stateOf; simpl; rewrite ?lookup_insert_eq; simpl;
      rewrite ?lookup_insert_eq; simpl; rewrite ?lookup_insert_eq; simpl;
      rewrite ?lookup_insert_eq; simpl;
      fold (stateOf w (from_id ctx)); fold user; fold (stateOf w user);
      rewrite ?Haddr; by repeat split. }
  destruct H as (a & w' & evs & Hrun & Htr & -> & Ha & Hm).
  exists a. rewrite (eventsOf_app _ _ _ _ _ Hrun Htr).
  subst w1. rewrite Hrun. by repeat split.
Qed.

End Conversation.

Section Remote.
Import Laws.
Context {wallet : Wallet} {platform : Platform}.

Lemma readBalance_accepted v text :
  readBalance v = inr text -> accepted v = true.
Proof.
  unfold readBalance, accepted, mbind, exn_bind.
  destruct (get v "code") as [e|code]; [done|].
  destruct (strict_eq_string code "0"); [done|]. simpl.
  by destruct (get v "msg").
Qed.

(** X13. A balance check asks the remote service once. It issues exactly
    one request, to the balance path, for the sender's address (created
    if need be) on chain 196, and then sends exactly one message: the
    balance text when the response can be read, the same error message
    in every other case (no response, a code other than 0, no data, no
    token, a token without balance or price). Only a balance text moves
    the prompt; the error message leaves [messageId] as it was. *)
Theorem balance_check_asks_once (ctx : context) (w : world) :
  let user := from_id ctx in
  let w1 := snd (handleCheckBalance ctx w) in
  exists a,
    fst (getOrCreateAddress user w) = Ok a
    /\ let r := requestAt (clock w) balancePath (balanceBody a) in
       let answer :=
         match fetch_json r with
         | Some v => readBalance v
         | None => inl Rejected
         end in
       eventsOf (handleCheckBalance ctx) w
         = [ Fetch r;
             Reply (chat_id ctx)
               (match answer with inr text => text | inl _ => balanceFailure end)
               plain ]
       /\ req_body r
          = stringify_object
              [ ("address", VStr a);
                ("tokenAddresses",
                 VArr [ VObj [ ("chainIndex", VStr "196");
                               ("tokenAddress", VStr "") ] ]) ]%string
       /\ (forall v, fetch_json r = Some v -> accepted v = false ->
             exists e, answer = inl e)
       /\ messageId (stateOf w1 user)
          = match answer with
            | inr _ => Some (message_id (sent w))
            | inl _ => messageId (stateOf w user)
            end.
Proof.
  intros user w1.
  assert (H : exists a w0,
             getOrCreateAddress user w = (Ok a, w0)
             /\ clock w0 = clock w /\ sent w0 = sent w /\ trace w0 = trace w
             /\ messageId (stateOf w0 user) = messageId (stateOf w user)).
  { unfold getOrCreateAddress. run.
    destruct (address (stateOf w user)) as [[|c r]|]; simpl;
      unfold drawMnemonic; simpl; eexists _, _; (split; [reflexivity|]);
      simpl; repeat split; unfold stateOf; simpl;
      by rewrite ?lookup_insert_eq. }
  destruct H as (a & w0 & Hget & Hclock & Hsent & Htrace & Hmid).
  exists a. rewrite Hget. split; [done|]. intros r answer.
  assert (Hrun : exists w',
             handleCheckBalance ctx w = (Ok tt, w')
             /\ trace w' = trace w
                  ++ [ Fetch r;
                       Reply (chat_id ctx)
                         (match answer with
                          | inr text => text
                          | inl _ => balanceFailure
                          end) plain ]
             /\ messageId (stateOf w' user)
                = match answer with
                  | inr _ => Some (message_id (sent w))
                  | inl _ => messageId (stateOf w user)
                  end).
  { unfold handleCheckBalance. fold user.
    unfold mbind at 1, M_bind at 1. rewrite Hget.
    subst answer r. unfold requestAt. rewrite <- Hclock.
    clear Hget. run. rewrite Htrace.
    destruct (fetch_json _) as [v|]; simpl.
    - destruct (readBalance v) as [e|text]; simpl;
        eexists; (split; [reflexivity|]); simpl; rewrite <- ?app_assoc;
        (split; [reflexivity|]); unfold stateOf; simpl;
        rewrite ?lookup_insert_eq; simpl; fold (stateOf w0 (from_id ctx));
        fold user; by rewrite ?Hsent.
    - eexists; (split; [reflexivity|]); simpl; rewrite <- ?app_assoc;
        (split; [reflexivity|]); done. }
  destruct Hrun as (w' & Hrun & Htr & Hm).
  split; [by apply (eventsOf_app _ _ _ _ _ Hrun Htr)|].
  split; [done|]. split.
  - intros v Hf Hrefused. subst answer. rewrite Hf.
    destruct (readBalance v) as [e|text] eqn:Hread; [by exists e|].
    apply readBalance_accepted in Hread. congruence.
  - subst w1. by rewrite Hrun.
Qed.

(** X14. Pinning needs a session. For a user without an entry in
    [userStates] no pin is attempted and the failure message is sent;
    with an entry the recorded prompt is pinned in the chat of the
    update, and the success or the failure message follows as the chat
    accepts the pin or not. The session table is never changed. *)
Theorem pin_needs_a_session (ctx : context) (w : world) :
  let evs := eventsOf (handlePinMessage ctx) w in
  fst (handlePinMessage ctx w) = Ok tt
  /\ userStates (snd (handlePinMessage ctx w)) = userStates w
  /\ match userStates w !! from_id ctx with
     | None => evs = [Reply (chat_id ctx) pinFailure plain]
     | Some st =>
         evs = [ Pin (chat_id ctx) (messageId st);
                 Reply (chat_id ctx)
                   (if pinChatMessage (chat_id ctx) (messageId st)
                    then "Message pinned successfully!"%string
                    else pinFailure) plain ]
     end.
Proof.
  intros evs. subst evs.
  assert (H : exists w' evs,
             handlePinMessage ctx w = (Ok tt, w')
             /\ trace w' = trace w ++ evs
             /\ userStates w' = userStates w
             /\ match userStates w !! from_id ctx with
                | None => evs = [Reply (chat_id ctx) pinFailure plain]
                | Some st =>
                    evs = [ Pin (chat_id ctx) (messageId st);
                            Reply (chat_id ctx)
                              (if pinChatMessage (chat_id ctx) (messageId st)
                               then "Message pinned successfully!"%string
                               else pinFailure) plain ]
                end).
  { unfold handlePinMessage, try_catch.
    destruct (userStates w !! from_id ctx) as [st|]; run.
    - destruct (pinChatMessage _ _); simpl;
        eexists _, _; (split; [reflexivity|]); simpl; rewrite <- ?app_assoc;
        by repeat split.
    - eexists _, _; (split; [reflexivity|]); by repeat split. }
  destruct H as (w' & evs & Hrun & Htr & Hst & Hshape).
  rewrite (eventsOf_app _ _ _ _ _ Hrun Htr), Hrun. by repeat split.
Qed.

(** X15. What is signed is what was asked for. Whenever a withdrawal
    signs a transaction, the key is the private key of the sender's
    session; the destination is the text received, for which the
    awaited result of [wallet.validAddress] was truthy; the value is
    the amount string sent as [txAmount] in the sign-info request; the
    sign-info response carried the success code, and nonce, gas price
    and gas limit are what it holds at [data[0].nonce],
    [data[0].gasPrice.normal] and [data[0].gasLimit]; and a broadcast
    request, if one follows, carries the transaction the wallet signed
    for exactly these parameters. *)
Theorem signed_transaction_is_the_one_asked_for
    (ctx : context) (w : world) (c : number) (k : option string)
    (data : txParams) :
  let st := stateOf w (from_id ctx) in
  let d := message_text ctx in
  let evs := eventsOf (handleWithdrawal ctx) w in
  In (Sign c k data) evs ->
  k = privateKey st
  /\ (exists result, validAddress d = Some result /\ JS.truthy result = true)
  /\ tx_to data = d
  /\ tx_value data = txAmountInWei (withdrawalAmount st)
  /\ tx_chainId data = "196"%string
  /\ (exists v items txData gasPrice,
        fetch_json (signInfoRequest st d (clock w)) = Some v
        /\ accepted v = true
        /\ get v "data" = inr items
        /\ first items = inr txData
        /\ get txData "nonce" = inr (tx_nonce data)
        /\ get txData "gasPrice" = inr gasPrice
        /\ get gasPrice "normal" = inr (tx_gasPrice data)
        /\ get txData "gasLimit" = inr (tx_gasLimit data))
  /\ (forall r, In r (requestsOf evs) ->
        req_url r = getRequestUrl broadcastPath ->
        exists signedTx,
          signTransaction c k data = Some signedTx
          /\ req_body r = broadcastBody signedTx (address st)).
Proof.
  intros st d evs Hin.
  destruct (noAmount st) eqn:Hno.
  { destruct (eventsOf_amount ctx w Hno) as (text & options & Hevs).
    subst evs. rewrite Hevs in Hin. by destruct Hin. }
  pose proof (eventsOf_destination ctx w Hno) as Hatt.
  fold st d evs in Hatt.
  assert (Hparams : forall data',
             signInfoOutcome st d (clock w) = inr data' ->
             tx_to data' = d
             /\ tx_value data' = txAmountInWei (withdrawalAmount st)
             /\ tx_chainId data' = "196"%string
             /\ exists v items txData gasPrice,
                  fetch_json (signInfoRequest st d (clock w)) = Some v
                  /\ accepted v = true
                  /\ get v "data" = inr items
                  /\ first items = inr txData
                  /\ get txData "nonce" = inr (tx_nonce data')
                  /\ get txData "gasPrice" = inr gasPrice
                  /\ get gasPrice "normal" = inr (tx_gasPrice data')
                  /\ get txData "gasLimit" = inr (tx_gasLimit data')).
  { intros data' Hsi. unfold signInfoOutcome in Hsi.
    destruct (fetch_json _) as [v|] eqn:Hf; [|done].
    destruct (readSignInfo_params _ _ _ _ Hsi) as (H1 & H2 & H3).
    destruct (readSignInfo_fields _ _ _ _ Hsi)
      as (items & txData & gasPrice & Hfields).
    repeat split; try done. by exists v, items, txData, gasPrice. }
  assert (Htruthy : addressCheck d = Some true ->
                    exists result,
                      validAddress d = Some result
                      /\ JS.truthy result = true).
  { unfold addressCheck. destruct (validAddress d) as [result|]; [|done].
    intros [= Ht]. by exists result. }
  destruct Hatt as [Hv|Hv|e Hv Hsi|data' Hv Hsi Hsg|data' stx e Hv Hsi Hsg Hbc
                   |data' stx o Hv Hsi Hsg Hbc];
    simpl in Hin; unfold initiating, signing in Hin;
    repeat (destruct Hin as [Hin|Hin]; try discriminate Hin);
    try (by destruct Hin);
    injection Hin as <- <- <-;
    destruct (Hparams _ Hsi) as (H1 & H2 & H3 & H4);
    (split; [done|]); (split; [by apply Htruthy|]); (split; [done|]);
    (split; [done|]);
    (split; [done|]); (split; [done|]);
    intros r Hr Hurl; simpl in Hr.
  - destruct Hr as [<-|[]]. exfalso. apply paths_differ. by symmetry.
  - destruct Hr as [<-|[<-|[]]];
      [exfalso; apply paths_differ; by symmetry|].
    by exists stx.
  - destruct Hr as [<-|[<-|[]]];
      [exfalso; apply paths_differ; by symmetry|].
    by exists stx.
Qed.

End Remote.

Section Sessions.
Import Laws.
Context {wallet : Wallet} {platform : Platform}.

(** X19. A withdrawal does not need a wallet. In a session that holds an
    amount but no address (the withdraw button pressed without /start),
    a destination for which the address check gives a truthy result
    still leads to the sign-info request, whose
    body then has no [fromAddr] property at all, and whatever is signed
    is signed with the private key of the session as it is. *)
Theorem withdrawal_does_not_need_a_wallet (ctx : context) (w : world) :
  let st := stateOf w (from_id ctx) in
  let evs := eventsOf (handleWithdrawal ctx) w in
  noAmount st = false ->
  address st = None ->
  addressCheck (message_text ctx) = Some true ->
  exists r rest,
    requestsOf evs = r :: rest
    /\ req_url r = getRequestUrl signInfoPath
    /\ req_body r
       = stringify_object
           [ ("chainIndex", VStr "196");
             ("toAddr", VStr (message_text ctx));
             ("txAmount", VStr (txAmountInWei (withdrawalAmount st))) ]%string
    /\ (forall c k data, In (Sign c k data) evs -> k = privateKey st).
Proof.
  intros st evs Hno Haddr Hvalid.
  pose proof (eventsOf_destination ctx w Hno) as Hatt. fold st evs in Hatt.
  pose proof (attempt_requests _ _ _ _ _ Hatt) as Hreq.
  unfold requestsIssued in Hreq. rewrite Hvalid in Hreq.
  eexists _, _. split; [exact Hreq|]. split; [done|]. split.
  - simpl. unfold signInfoBody. by rewrite Haddr.
  - intros c k data Hin. clear Hreq.
    destruct Hatt; simpl in Hin; unfold initiating, signing in Hin;
      repeat (destruct Hin as [Hin|Hin]; try discriminate Hin);
      try (by destruct Hin); by injection Hin as <- <- <-.
Qed.

Lemma override_assoc {A} (a b c : option A) :
  override c (override b a) = override (override c b) a.
Proof. by destruct c, b. Qed.

Lemma spread_assoc st p1 p2 :
  spread (spread st p1) p2 = spread st (spread p1 p2).
Proof. unfold spread. simpl. by rewrite !override_assoc. Qed.

(** X20. Two updates of a session are one update with the patches
    merged: [updateUserState user p1] followed by
    [updateUserState user p2] leaves the same world as
    [updateUserState user { ...p1, ...p2 }]; and the session read back
    after an update is the old one with the properties of the patch on
    top. *)
Theorem session_updates_compose
    (user : Z) (p1 p2 : userState) (w : world) :
  snd ((updateUserState user p1;; updateUserState user p2) w)
    = snd (updateUserState user (spread p1 p2) w)
  /\ stateOf (snd (updateUserState user p1 w)) user
     = spread (stateOf w user) p1.
Proof.
  split.
  - unfold mbind, M_bind, updateUserState. simpl. unfold stateOf at 1. simpl.
    rewrite lookup_insert_eq. simpl. fold (stateOf w user).
    by rewrite insert_insert_eq, spread_assoc.
  - unfold updateUserState, stateOf. simpl. by rewrite lookup_insert_eq.
Qed.

(** X21. Clearing a session discards the wallet with it: after
    [clearUserState] the user has no entry (other users keep theirs), and
    the next [getOrCreateAddress] does not find the old address but
    derives a new private key from a newly drawn mnemonic and returns the
    address of that key. *)
Theorem clearing_a_session_discards_the_wallet (user : Z) (w : world) :
  let w1 := snd (clearUserState user w) in
  let key :=
    getDerivedPrivateKey (generateMnemonic (entropy w)) (getDerivedPath 0) in
  userStates w1 !! user = None
  /\ (forall other, other <> user ->
        userStates w1 !! other = userStates w !! other)
  /\ fst (getOrCreateAddress user w1) = Ok (fst (getNewAddress key))
  /\ privateKey (stateOf (snd (getOrCreateAddress user w1)) user) = Some key
  /\ entropy (snd (getOrCreateAddress user w1)) = S (entropy w).
Proof.
  intros w1 key. subst w1. unfold clearUserState. simpl.
  split; [apply lookup_delete_eq|].
  split; [intros other Hne; by apply lookup_delete_ne|].
  unfold getOrCreateAddress. run. unfold stateOf. simpl.
  rewrite !lookup_delete_eq. simpl. unfold drawMnemonic. simpl.
  by rewrite lookup_insert_eq.
Qed.

End Sessions.

Section Blindness.
Import Laws.
Context {wallet : Wallet} {platform : Platform}.

Lemma alike_stateOf user w w' :
  alike user w w' -> stateOf w user = stateOf w' user.
Proof. intros (H & _). unfold stateOf. by rewrite H. Qed.

Lemma blind_quiet user {A} (m : M A) :
  (forall w w', alike user w w' ->
     fst (m w) = fst (m w') /\ alike user (snd (m w)) (snd (m w'))) ->
  (forall w, trace (snd (m w)) = trace w) ->
  blind user m.
Proof.
  intros H Htr w w' Hw. destruct (H w w' Hw) as [H1 H2].
  split; [done|]. split; [done|]. exists []. by rewrite !Htr, !app_nil_r.
Qed.

Lemma blind_ret user {A} (a : A) : blind user (mret a).
Proof. by apply blind_quiet. Qed.

Lemma blind_throw user {A} e : blind user (throw (A := A) e).
Proof. by apply blind_quiet. Qed.

Lemma blind_lift user {A} (r : exn + A) : blind user (lift r).
Proof. destruct r; [apply blind_throw|apply blind_ret]. Qed.

Lemma blind_bind user {A B} (m : M A) (f : A -> M B) :
  blind user m -> (forall a, blind user (f a)) -> blind user (m ≫= f).
Proof.
  intros Hm Hf w w' Hw. unfold mbind, M_bind.
  destruct (Hm w w' Hw) as (Hres & Hw1 & evs & Htr & Htr').
  destruct (m w) as [[a|e] w1], (m w') as [[a'|e'] w1']; simpl in *;
    try discriminate Hres.
  - injection Hres as <-.
    destruct (Hf a w1 w1' Hw1) as (Hres2 & Hw2 & evs2 & Htr2 & Htr2').
    split; [done|]. split; [done|]. exists (evs ++ evs2).
    by rewrite Htr2, Htr2', Htr, Htr', !app_assoc.
  - injection Hres as <-. split; [done|]. split; [done|]. by exists evs.
Qed.

Lemma blind_try_catch user {A} (body : M A) (handler : exn -> M A) :
  blind user body -> (forall e, blind user (handler e)) ->
  blind user (try_catch body handler).
Proof.
  intros Hm Hf w w' Hw. unfold try_catch.
  destruct (Hm w w' Hw) as (Hres & Hw1 & evs & Htr & Htr').
  destruct (body w) as [[a|e] w1], (body w') as [[a'|e'] w1']; simpl in *;
    try discriminate Hres.
  - split; [done|]. split; [done|]. by exists evs.
  - injection Hres as <-.
    destruct (Hf e w1 w1' Hw1) as (Hres2 & Hw2 & evs2 & Htr2 & Htr2').
    split; [done|]. split; [done|]. exists (evs ++ evs2).
    by rewrite Htr2, Htr2', Htr, Htr', !app_assoc.
Qed.

Lemma blind_readState user : blind user (readState user).
Proof.
  apply blind_quiet; [|done]. intros w w' Hw. simpl.
  by rewrite (alike_stateOf _ _ _ Hw).
Qed.

Lemma blind_updateUserState user st : blind user (updateUserState user st).
Proof.
  apply blind_quiet; [|done]. intros w w' Hw. split; [done|].
  destruct Hw as (Hst & Hs & Hc & He). unfold updateUserState, stateOf.
  repeat split; simpl; try done. by rewrite !lookup_insert_eq, Hst.
Qed.

Lemma blind_emit user ev : blind user (emit ev).
Proof.
  intros w w' Hw. split; [done|]. split; [exact Hw|]. by exists [ev].
Qed.

Lemma blind_reply user ctx text options : blind user (reply ctx text options).
Proof.
  intros w w' (Hst & Hs & Hc & He). unfold reply. simpl.
  rewrite Hs. split; [done|]. split; [|by eexists [_]].
  repeat split; simpl; congruence.
Qed.

Lemma blind_now user : blind user now.
Proof.
  apply blind_quiet; [|done]. intros w w' (Hst & Hs & Hc & He).
  unfold now. simpl. by rewrite Hc.
Qed.

Lemma blind_drawMnemonic user : blind user drawMnemonic.
Proof.
  apply blind_quiet; [|done]. intros w w' (Hst & Hs & Hc & He).
  unfold drawMnemonic. simpl. by rewrite He.
Qed.

Lemma blind_fetch user r : blind user (fetch r).
Proof.
  unfold fetch. apply blind_bind; [apply blind_emit|]. intros _.
  destruct (fetch_json r); [apply blind_ret|apply blind_throw].
Qed.

Lemma blind_handlePinMessage ctx : blind (from_id ctx) (handlePinMessage ctx).
Proof.
  unfold handlePinMessage. apply blind_try_catch.
  - intros w w' Hw. pose proof Hw as (Hst & Hs & Hc & He). rewrite <- Hst.
    destruct (userStates w !! from_id ctx) as [st|].
    + run. rewrite Hs.
      destruct (pinChatMessage _ _); simpl;
        (split; [done|]);
        (split; [repeat split; simpl; first [apply Hw | congruence]|]).
      * eexists [_; _]. by rewrite <- !app_assoc.
      * by eexists [_].
    + split; [done|]. split; [done|]. exists []. by rewrite !app_nil_r.
  - intros e. apply blind_bind; [apply blind_reply|intros ?; apply blind_ret].
Qed.

Ltac blinded :=
  repeat lazymatch goal with
    | |- Laws.blind _ (_ ≫= _) => apply blind_bind; [|intros ?]
    | |- Laws.blind _ (try_catch _ _) => apply blind_try_catch; [|intros ?]
    | |- Laws.blind _ (mret _) => apply blind_ret
    | |- Laws.blind _ (throw _) => apply blind_throw
    | |- Laws.blind _ (lift _) => apply blind_lift
    | |- Laws.blind _ (emit _) => apply blind_emit
    | |- Laws.blind _ (readState _) => apply blind_readState
    | |- Laws.blind _ now => apply blind_now
    | |- Laws.blind _ drawMnemonic => apply blind_drawMnemonic
    | |- Laws.blind _ (reply _ _ _) => apply blind_reply
    | |- Laws.blind _ (fetch _) => apply blind_fetch
    | |- Laws.blind _ (updateUserState _ _) => apply blind_updateUserState
    | |- Laws.blind _ (match ?x with _ => _ end) => destruct x
    end.

Lemma blind_handle (u : update) : blind (sender u) (handle u).
Proof.
  destruct u as [ctx|b ctx|ctx]; simpl.
  - unfold start, getOrCreateAddress, sendReply. blinded.
  - unfold onCallbackQuery. apply blind_bind; [blinded|intros _].
    destruct b; simpl.
    + unfold handleCheckBalance, getOrCreateAddress, post, getHeaders,
        sendReply. blinded.
    + unfold handleDeposit, getOrCreateAddress, sendReply. blinded.
    + unfold handleInitialWithdrawal, sendReply. blinded.
    + apply blind_handlePinMessage.
    + unfold handleExportKey, sendReply. blinded.
  - unfold onMessageText, handleUserState, handleWithdrawal, withdraw, sign,
      post, getHeaders, sendReply. blinded.
Qed.

(** X22. An update does not read the sessions of other users. From two
    worlds that agree on the sender's session and on the counters
    (messages sent, clock, mnemonics drawn), whatever the other sessions
    hold, the update returns the same result, adds the same events to the
    trace, and leaves the sender with the same session. *)
Theorem updates_read_only_their_sender (u : update) (w w' : world) :
  alike (sender u) w w' ->
  fst (handle u w) = fst (handle u w')
  /\ eventsOf (handle u) w = eventsOf (handle u) w'
  /\ alike (sender u) (snd (handle u w)) (snd (handle u w')).
Proof.
  intros Hw. destruct (blind_handle u w w' Hw) as (Hres & Hw1 & evs & Htr & Htr').
  split; [done|]. split; [|done].
  unfold eventsOf, exec. by rewrite Htr, Htr', !drop_app_length.
Qed.

(** X23. A reply to the last prompt in a session where no withdrawal was
    requested is dropped: it passes the gate, no handler takes it, and
    the world is left exactly as it was, without any message to the
    user. *)
Theorem reply_without_request_is_dropped (ctx : context) (w : world) :
  repliesToLast ctx (stateOf w (from_id ctx)) = true ->
  withdrawalRequested (stateOf w (from_id ctx)) <> Some true ->
  onMessageText ctx w = (Ok tt, w).
Proof.
  intros Hgate Hreq. unfold onMessageText, handleUserState.
  unfold mbind, M_bind, readState, mret, M_ret. rewrite Hgate.
  by destruct (withdrawalRequested _) as [[]|].
Qed.

End Blindness.

Section Startup.
Import Laws.

Lemma checkEnv_spec (env : string -> option string) (vars : list string) :
  match checkEnv env vars with
  | inr _ => Forall (fun v => isSet (env v) = true) vars
  | inl e =>
      exists before name after,
        vars = before ++ name :: after
        /\ Forall (fun v => isSet (env v) = true) before
        /\ isSet (env name) = false
        /\ e = Error (VStr ("missing " ++ name ++ " environment variable")%string)
  end.
Proof.
  induction vars as [|v vars IH]; simpl; [constructor|].
  destruct (isSet (env v)) eqn:Hv.
  - destruct (checkEnv env vars) as [e|[]].
    + destruct IH as (before & name & after & -> & Hb & Hn & ->).
      exists (v :: before), name, after. repeat split; [|done].
      by constructor.
    + by constructor.
  - by exists [], v, vars.
Qed.

(** X16. The start-up check passes exactly when each of the six required
    variables is set to a non-empty string; otherwise it throws the error
    naming the first one, in the order of the list, that is unset or
    empty. *)
Theorem startup_check_names_the_first_missing (env : string -> option string) :
  match checkEnv env requiredEnvVars with
  | inr _ => Forall (fun v => isSet (env v) = true) requiredEnvVars
  | inl e =>
      exists before name after,
        requiredEnvVars = before ++ name :: after
        /\ Forall (fun v => isSet (env v) = true) before
        /\ isSet (env name) = false
        /\ e = Error (VStr ("missing " ++ name ++ " environment variable")%string)
  end.
Proof. apply checkEnv_spec. Qed.

Lemma in_range (a n len : Z) :
  a <= n < a + len -> In n (range a len).
Proof.
  intros H. unfold range. apply in_map_iff.
  exists (Z.to_nat (n - a)). split; [lia|]. apply in_seq. lia.
Qed.

Lemma cents_exact_all : forallb exactInWei (range 1 999) = true.
Proof. vm_compute. reflexivity. Qed.

Lemma thousands_all : forallb inExponentNotation (range 1000 1000) = true.
Proof. vm_compute. reflexivity. Qed.

(** X17. The conversion to base units is exact on small amounts: for
    every amount from 0.01 to 9.99 typed with two decimals, the
    [txAmount] string is the amount times 10^18, written as a plain
    integer. *)
Theorem cent_amounts_convert_exactly (n : Z) :
  1 <= n <= 999 ->
  txAmountInWei (Some (parseFloat (cents n))) = string_of_Z (n * 10 ^ 16).
Proof.
  intros H. apply String.eqb_eq.
  pose proof cents_exact_all as Hall. rewrite forallb_forall in Hall.
  apply (Hall n). apply in_range. lia.
Qed.

(** X18. From 1000 on, the amount string leaves integer notation: for
    every whole amount from 1000 to 1999 the [txAmount] string ends in
    e+21 and is not the decimal integer of the amount times 10^18. *)
Theorem large_amounts_use_exponent_notation (n : Z) :
  1000 <= n <= 1999 ->
  let s := txAmountInWei (Some (parseFloat (string_of_Z n))) in
  str_drop (String.length s - 4) s = "e+21"%string
  /\ s <> string_of_Z (n * 10 ^ 18).
Proof.
  intros H s.
  pose proof thousands_all as Hall. rewrite forallb_forall in Hall.
  assert (Hn : inExponentNotation n = true) by (apply Hall, in_range; lia).
  unfold inExponentNotation in Hn. fold s in Hn.
  apply andb_true_iff in Hn as [H1 H2].
  split; [by apply String.eqb_eq|].
  apply negb_true_iff in H2. by apply String.eqb_neq.
Qed.

End Startup.

(* ===================================================================== *)
(** ** The claims at concrete inputs *)
(* ===================================================================== *)

Section Evaluation.
Import Demo.
Local Open Scope string_scope.

(** C1. The amount is read with [parseFloat], so digits beyond the
    precision of a binary64 number are lost before the exact
    multiplication: the text 1.000000000000000001 is stored as the
    number 1 and sent as 1000000000000000000 base units, not as
    1000000000000000001. *)
Theorem amount_digits_are_lost_in_parseFloat :
  parseFloat "1.000000000000000001" = parseFloat "1"
  /\ txAmountInWei (Some (parseFloat "1.000000000000000001"))
     = "1000000000000000000"
  /\ txAmountInWei (Some (parseFloat "1.000000000000000001"))
     <> "1000000000000000001"
  /\ withdrawalAmount
       (stateOf (exec (onMessageText (wallet := wallet) (platform := platform)
                         (text "1.000000000000000001" 101)) requested) alice)
     = Some (parseFloat "1").
Proof. vm_compute. repeat split; discriminate. Qed.

(** C2. No terminal state clears the pending withdrawal. After a
    successful withdrawal, after a refused sign-info and after a
    refused broadcast alike, [withdrawalRequested] and
    [withdrawalAmount] hold what they held, next to the untouched
    address and private key. A new withdraw request does not reset
    them either: the amount then typed is taken for a destination. *)
Theorem terminal_states_keep_the_pending_withdrawal :
  let pending (w : world) :=
    (withdrawalRequested (stateOf w alice),
     withdrawalAmount (stateOf w alice)) in
  let keys (w : world) :=
    (address (stateOf w alice), privateKey (stateOf w alice)) in
  let refusedAt :=
    exec (onMessageText (wallet := wallet) (platform := refusing)
            (text "0xdest" 102)) captured in
  let unsentAt :=
    exec (onMessageText (wallet := wallet) (platform := unsent)
            (text "0xdest" 102)) captured in
  let again :=
    exec (handleInitialWithdrawal (platform := platform) click) completed in
  last (trace completed)
    = Some (Reply alice
              "Successfully initiated withdrawal of 2.5 OKB to 0xdest. Transaction ID: order-42"
              markdown)
  /\ last (trace refusedAt) = Some (Reply alice failureMessage plain)
  /\ last (trace unsentAt) = Some (Reply alice failureMessage plain)
  /\ pending completed = (Some true, Some (parseFloat "2.5"))
  /\ pending refusedAt = (Some true, Some (parseFloat "2.5"))
  /\ pending unsentAt = (Some true, Some (parseFloat "2.5"))
  /\ keys completed = keys captured
  /\ keys refusedAt = keys captured
  /\ keys unsentAt = keys captured
  /\ pending again = (Some true, Some (parseFloat "2.5"))
  /\ eventsOf (onMessageText (wallet := wallet) (platform := platform)
                 (text "3" 105)) again
     = [Reply alice invalidDestination plain].
Proof. vm_compute. repeat split. Qed.

End Evaluation.

(* ===================================================================== *)
(** ** The theorems at work on the concrete environment *)
(* ===================================================================== *)

Section Witnesses.
Import Demo.
Local Open Scope string_scope.

(** The three amounts named by C4, refused in the world [requested]. *)
Lemma invalid_amount_witness :
  let refusedIn (t : string) :=
    let ctx := text t 101 in
    noAmount (stateOf requested (from_id ctx)) = true
    /\ gt_zero (parseFloat (message_text ctx)) = false
    /\ exists w',
         handleWithdrawal (wallet := wallet) (platform := platform) ctx requested
           = (Ok tt, w')
         /\ trace w' = (trace requested ++ [Reply (chat_id ctx) invalidAmount plain])%list
         /\ userStates w' = userStates requested
         /\ noAmount (stateOf w' (from_id ctx)) = true in
  refusedIn "abc" /\ refusedIn "-5" /\ refusedIn "0".
Proof.
  intros refusedIn. unfold refusedIn.
  repeat split;
    try (vm_compute; reflexivity);
    apply (invalid_amount_is_refused_in_place (wallet := wallet)
             (platform := platform));
    vm_compute; reflexivity.
Defined.

Lemma text_outside_a_reply_witness :
  let ctx := text "2.5" 100 in
  let w := requested in
  ~ (exists m, reply_to_message ctx = Some m
               /\ messageId (stateOf w (from_id ctx)) = Some m)
  /\ let w' :=
       {| userStates := userStates w; sent := S (sent w); clock := clock w;
          entropy := entropy w;
          trace := (trace w ++ [Reply (chat_id ctx)
                                  "Please select an option from the menu."
                                  plain])%list |} in
     (forall handler,
        handleUserState (platform := platform) ctx handler w = (Ok tt, w'))
     /\ onMessageText (wallet := wallet) (platform := platform) ctx w = (Ok tt, w')
     /\ withdrawalRequested (stateOf w' (from_id ctx))
        = withdrawalRequested (stateOf w (from_id ctx))
     /\ withdrawalAmount (stateOf w' (from_id ctx))
        = withdrawalAmount (stateOf w (from_id ctx)).
Proof.
  intros ctx w.
  assert (H : ~ (exists m, reply_to_message ctx = Some m
                           /\ messageId (stateOf w (from_id ctx)) = Some m)).
  { intros (m & H1 & H2). vm_compute in H1, H2. congruence. }
  split; [exact H|].
  exact (text_outside_a_reply_is_ignored (wallet := wallet)
           (platform := platform) ctx w H).
Defined.

(** The destination 0x1234 of C3, which the check of [sdk] answers with
    an object whose [isValid] is [false], in the world [captured]. *)
Lemma failed_validation_witness :
  let ctx := text "0x1234" 102 in
  let w := captured in
  let result :=
    VObj [ ("isValid", VBool false); ("address", VStr "0x1234") ] in
  let st := stateOf w (from_id ctx) in
  let d := message_text ctx in
  let evs :=
    eventsOf (handleWithdrawal (wallet := sdk) (platform := platform) ctx) w in
  noAmount st = false
  /\ validAddress (Wallet := sdk) d = Some result
  /\ get result "isValid" = inr (VBool false)
  /\ (exists rest,
        evs = initiating (chat_id ctx)
              :: Fetch (signInfoRequest (platform := platform) st d (clock w))
              :: rest)
  /\ req_url (signInfoRequest (platform := platform) st d (clock w))
     = getRequestUrl signInfoPath
  /\ req_body (signInfoRequest (platform := platform) st d (clock w))
     = stringify_object
         [ ("chainIndex", VStr "196");
           ("fromAddr", of_option (address st));
           ("toAddr", VStr d);
           ("txAmount", VStr (txAmountInWei (withdrawalAmount st))) ]
  /\ ~ In (Reply (chat_id ctx) invalidDestination plain) evs.
Proof.
  intros ctx w result st d evs.
  assert (H1 : noAmount st = false) by (vm_compute; reflexivity).
  assert (H2 : validAddress (Wallet := sdk) d = Some result)
    by (vm_compute; reflexivity).
  assert (H3 : get result "isValid" = inr (VBool false)) by reflexivity.
  split; [exact H1|]. split; [exact H2|]. split; [exact H3|].
  exact (failed_validation_reaches_the_service (wallet := sdk)
           (platform := platform) ctx w result H1 H2 H3).
Defined.

Lemma falsy_address_check_witness :
  let ctx := text "nowhere" 102 in
  let w := captured in
  let d := message_text ctx in
  noAmount (stateOf w (from_id ctx)) = false
  /\ (forall result, validAddress (Wallet := wallet) d = Some result ->
      JS.truthy result = false)
  /\ exists evs w',
       handleWithdrawal (wallet := wallet) (platform := platform) ctx w
         = (Ok tt, w')
       /\ trace w' = (trace w ++ evs)%list
       /\ requestsOf evs = []
       /\ signingsOf evs = []
       /\ userStates w' = userStates w
       /\ (forall result, validAddress (Wallet := wallet) d = Some result ->
           evs = [Reply (chat_id ctx) invalidDestination plain])
       /\ (validAddress (Wallet := wallet) d = None ->
           evs = [Reply (chat_id ctx) failureMessage plain]).
Proof.
  intros ctx w d.
  assert (H1 : noAmount (stateOf w (from_id ctx)) = false)
    by (vm_compute; reflexivity).
  assert (H2 : forall result, validAddress (Wallet := wallet) d = Some result ->
                              JS.truthy result = false)
    by (intros result [= <-]; reflexivity).
  split; [exact H1|]. split; [exact H2|].
  exact (falsy_address_check_sends_no_request (wallet := wallet)
           (platform := platform) ctx w H1 H2).
Defined.

Lemma getOrCreateAddress_witness :
  (forall key, fst (getNewAddress (Wallet := wallet) key) <> EmptyString)
  /\ exists a w1,
       getOrCreateAddress (wallet := wallet) alice initial = (Ok a, w1)
       /\ getOrCreateAddress (wallet := wallet) alice w1 = (Ok a, w1)
       /\ address (stateOf w1 alice) = Some a.
Proof.
  assert (H : forall key,
             fst (getNewAddress (Wallet := wallet) key) <> EmptyString)
    by (intros key; discriminate).
  split; [exact H|].
  exact (getOrCreateAddress_idempotent (wallet := wallet) alice initial H).
Defined.

Lemma refused_response_witness :
  let ctx := text "0xdest" 102 in
  let w := captured in
  let r := signInfoRequest (platform := refusing)
             (stateOf w alice) "0xdest" (clock w) in
  let chat := chat_id ctx in
  let evs :=
    eventsOf (handleWithdrawal (wallet := wallet) (platform := refusing) ctx) w in
  In r (requestsOf evs)
  /\ fetch_json (Platform := refusing) r = Some refused
  /\ accepted refused = false
  /\ fst (handleWithdrawal (wallet := wallet) (platform := refusing) ctx w)
     = Ok tt
  /\ last evs = Some (Reply chat failureMessage plain)
  /\ (forall amount d orderId options,
        ~ In (Reply chat (successMessage amount d orderId) options) evs)
  /\ (req_url r = getRequestUrl signInfoPath ->
      signingsOf evs = [] /\ requestsOf evs = [r])
  /\ (forall amount d orderId,
        successMessage amount d orderId <> failureMessage).
Proof.
  intros ctx w r chat evs.
  assert (H1 : In r (requestsOf evs)) by (vm_compute; left; reflexivity).
  assert (H2 : fetch_json (Platform := refusing) r = Some refused)
    by (vm_compute; reflexivity).
  assert (H3 : accepted refused = false) by reflexivity.
  split; [exact H1|]. split; [exact H2|]. split; [exact H3|].
  exact (refused_response_ends_in_failure (wallet := wallet)
           (platform := refusing) ctx w r refused H1 H2 H3).
Defined.


End Witnesses.

Section MoreWitnesses.
Import Demo Laws.
Local Open Scope string_scope.
#[local] Existing Instance Demo.wallet.
#[local] Existing Instance Demo.platform.

Lemma updates_touch_only_their_sender_witness :
  let us := [ Callback withdraw_OKB click; Text (text "7" 107);
              Text (text "0xother" 108); Callback export_key click ] in
  Forall (fun u => sender u <> bob) us
  /\ userStates (runAll (wallet := wallet) (platform := platform) us both) !! bob
     = userStates both !! bob.
Proof.
  intros us.
  assert (H : Forall (fun u => sender u <> bob) us)
    by (repeat constructor; discriminate).
  split; [exact H|].
  exact (updates_touch_only_their_sender (wallet := wallet)
           (platform := platform) us both bob H).
Defined.

Lemma address_and_keys_witness :
  let us := [ Callback withdraw_OKB click; Text (text "2.5" 101);
              Text (text "0xdest" 102); Command_start click;
              Callback export_key click; Callback deposit_OKB click ] in
  "0xkey:seed-0" <> EmptyString
  /\ keysAre alice "0xkey:seed-0" (Some "key:seed-0") (Some "pub:key:seed-0")
       started
  /\ keysAre alice "0xkey:seed-0" (Some "key:seed-0") (Some "pub:key:seed-0")
       (runAll (wallet := wallet) (platform := platform) us started).
Proof.
  intros us.
  assert (H1 : "0xkey:seed-0" <> EmptyString) by discriminate.
  assert (H2 : keysAre alice "0xkey:seed-0" (Some "key:seed-0")
                 (Some "pub:key:seed-0") started)
    by (vm_compute; repeat split).
  split; [exact H1|]. split; [exact H2|].
  exact (address_and_keys_are_never_replaced (wallet := wallet)
           (platform := platform) us started alice _ _ _ H1 H2).
Defined.

Lemma stored_amount_witness :
  let us := [ Text (text "0xdest" 102); Callback withdraw_OKB click;
              Text (text "3" 105); Command_start click ] in
  let x := parseFloat "2.5" in
  JSNumber.truthy x = true
  /\ amountIs alice x captured
  /\ amountIs alice x (runAll (wallet := wallet) (platform := platform) us captured).
Proof.
  intros us x.
  assert (H1 : JSNumber.truthy x = true) by (vm_compute; reflexivity).
  assert (H2 : amountIs alice x captured) by (vm_compute; reflexivity).
  split; [exact H1|]. split; [exact H2|].
  exact (stored_amount_is_never_changed (wallet := wallet)
           (platform := platform) us captured alice x H1 H2).
Defined.

Lemma gate_witness :
  let ctx := click in
  let answer := text "hello" 100 in
  let w := initial in
  let handler : context -> M unit := fun _ => mret tt in
  from_id answer = from_id ctx
  /\ let w1 := snd (sendReply (platform := platform) ctx "Welcome" plain w) in
     messageId (stateOf w1 (from_id ctx)) = Some (message_id (sent w))
     /\ (reply_to_message answer = Some (message_id (sent w)) ->
         handleUserState (platform := platform) answer handler w1
         = handler answer w1)
     /\ (reply_to_message answer <> Some (message_id (sent w)) ->
         handleUserState (platform := platform) answer handler w1
         = reminder answer w1).
Proof.
  intros ctx answer w handler.
  assert (H : from_id answer = from_id ctx) by reflexivity.
  split; [exact H|].
  exact (gate_opens_for_the_last_prompt (platform := platform)
           ctx answer "Welcome" plain handler w H).
Defined.

Lemma amount_reply_witness :
  let press := click in
  let ctx := text "2.5" 101 in
  let w := started in
  from_id ctx = from_id press
  /\ noAmount (stateOf w (from_id press)) = true
  /\ reply_to_message ctx = Some (message_id (Platform := platform) (sent w))
  /\ gt_zero (parseFloat (message_text ctx)) = true
  /\ let w1 := snd (handleInitialWithdrawal (platform := platform) press w) in
     let w2 := snd (onMessageText (wallet := wallet) (platform := platform)
                      ctx w1) in
     eventsOf (onMessageText (wallet := wallet) (platform := platform) ctx) w1
       = [Reply (chat_id ctx) addressPrompt forceReply]
     /\ withdrawalAmount (stateOf w2 (from_id ctx))
        = Some (parseFloat (message_text ctx))
     /\ noAmount (stateOf w2 (from_id ctx)) = false
     /\ withdrawalRequested (stateOf w2 (from_id ctx)) = Some true
     /\ messageId (stateOf w2 (from_id ctx))
        = Some (message_id (Platform := platform) (S (sent w))).
Proof.
  intros press ctx w.
  assert (H1 : from_id ctx = from_id press) by reflexivity.
  assert (H2 : noAmount (stateOf w (from_id press)) = true)
    by (vm_compute; reflexivity).
  assert (H3 : reply_to_message ctx
               = Some (message_id (Platform := platform) (sent w)))
    by (vm_compute; reflexivity).
  assert (H4 : gt_zero (parseFloat (message_text ctx)) = true)
    by (vm_compute; reflexivity).
  split; [exact H1|]. split; [exact H2|]. split; [exact H3|].
  split; [exact H4|].
  exact (amount_reply_is_captured (wallet := wallet) (platform := platform)
           press ctx w H1 H2 H3 H4).
Defined.

Lemma signed_transaction_witness :
  let ctx := text "0xdest" 102 in
  let w := captured in
  let c := parseInt xLayerChainId in
  let k := Some "key:seed-0" in
  let data :=
    {| tx_to := "0xdest"; tx_value := "2500000000000000000";
       tx_nonce := VStr "7"; tx_gasPrice := VStr "100";
       tx_gasLimit := VStr "21000"; tx_chainId := "196" |} in
  let st := stateOf w (from_id ctx) in
  let d := message_text ctx in
  let evs :=
    eventsOf (handleWithdrawal (wallet := wallet) (platform := platform) ctx) w in
  In (Sign c k data) evs
  /\ k = privateKey st
  /\ (exists result,
        validAddress (Wallet := wallet) d = Some result
        /\ JS.truthy result = true)
  /\ tx_to data = d
  /\ tx_value data = txAmountInWei (withdrawalAmount st)
  /\ tx_chainId data = "196"
  /\ (exists v items txData gasPrice,
        fetch_json (Platform := platform)
          (signInfoRequest (platform := platform) st d (clock w)) = Some v
        /\ accepted v = true
        /\ get v "data" = inr items
        /\ first items = inr txData
        /\ get txData "nonce" = inr (tx_nonce data)
        /\ get txData "gasPrice" = inr gasPrice
        /\ get gasPrice "normal" = inr (tx_gasPrice data)
        /\ get txData "gasLimit" = inr (tx_gasLimit data))
  /\ (forall r, In r (requestsOf evs) ->
        req_url r = getRequestUrl broadcastPath ->
        exists signedTx,
          signTransaction (Wallet := wallet) c k data = Some signedTx
          /\ req_body r = broadcastBody signedTx (address st)).
Proof.
  intros ctx w c k data st d evs.
  assert (H : In (Sign c k data) evs)
    by (vm_compute; right; right; left; reflexivity).
  split; [exact H|].
  exact (signed_transaction_is_the_one_asked_for (wallet := wallet)
           (platform := platform) ctx w c k data H).
Defined.

Lemma walletless_withdrawal_witness :
  let ctx := text "0xdest" 101 in
  let w := walletless in
  let st := stateOf w (from_id ctx) in
  let evs :=
    eventsOf (handleWithdrawal (wallet := wallet) (platform := platform) ctx) w in
  noAmount st = false
  /\ address st = None
  /\ addressCheck (wallet := wallet) (message_text ctx) = Some true
  /\ exists r rest,
       requestsOf evs = r :: rest
       /\ req_url r = getRequestUrl signInfoPath
       /\ req_body r
          = stringify_object
              [ ("chainIndex", VStr "196");
                ("toAddr", VStr (message_text ctx));
                ("txAmount", VStr (txAmountInWei (withdrawalAmount st))) ]
       /\ (forall c k data, In (Sign c k data) evs -> k = privateKey st).
Proof.
  intros ctx w st evs.
  assert (H1 : noAmount st = false) by (vm_compute; reflexivity).
  assert (H2 : address st = None) by (vm_compute; reflexivity).
  assert (H3 : addressCheck (wallet := wallet) (message_text ctx) = Some true)
    by reflexivity.
  split; [exact H1|]. split; [exact H2|]. split; [exact H3|].
  exact (withdrawal_does_not_need_a_wallet (wallet := wallet)
           (platform := platform) ctx w H1 H2 H3).
Defined.

Lemma cent_amounts_witness :
  (1 <= 250 <= 999)%Z
  /\ txAmountInWei (Some (parseFloat (cents 250))) = string_of_Z (250 * 10 ^ 16).
Proof.
  assert (H : (1 <= 250 <= 999)%Z) by lia.
  split; [exact H|]. exact (cent_amounts_convert_exactly 250 H).
Defined.

Lemma large_amounts_witness :
  (1000 <= 1000 <= 1999)%Z
  /\ let s := txAmountInWei (Some (parseFloat (string_of_Z 1000))) in
     str_drop (String.length s - 4) s = "e+21"
     /\ s <> string_of_Z (1000 * 10 ^ 18).
Proof.
  assert (H : (1000 <= 1000 <= 1999)%Z) by lia.
  split; [exact H|]. exact (large_amounts_use_exponent_notation 1000 H).
Defined.

Lemma updates_read_only_their_sender_witness :
  let u := Text (text "0xdest" 102) in
  alike (sender u) captured crowded
  /\ fst (handle u captured) = fst (handle u crowded)
  /\ eventsOf (handle u) captured = eventsOf (handle u) crowded
  /\ alike (sender u) (snd (handle u captured)) (snd (handle u crowded)).
Proof.
  intros u.
  assert (H : alike (sender u) captured crowded)
    by (vm_compute; repeat split).
  split; [exact H|].
  exact (updates_read_only_their_sender u captured crowded H).
Defined.

Lemma reply_without_request_witness :
  let ctx := text "hello" 100 in
  repliesToLast ctx (stateOf started (from_id ctx)) = true
  /\ withdrawalRequested (stateOf started (from_id ctx)) <> Some true
  /\ onMessageText ctx started = (Ok tt, started).
Proof.
  intros ctx.
  assert (H1 : repliesToLast ctx (stateOf started (from_id ctx)) = true)
    by (vm_compute; reflexivity).
  assert (H2 : withdrawalRequested (stateOf started (from_id ctx)) <> Some true)
    by (vm_compute; discriminate).
  split; [exact H1|]. split; [exact H2|].
  exact (reply_without_request_is_dropped ctx started H1 H2).
Defined.

End MoreWitnesses.
